(** * JIRA knowledge-base agent: a shallow embedding of [jira-agent/agent.py]

    The development follows the layering of the Python module:
    - Python values as the code sees them (strings, JSON values, floats);
    - the Document Builder [_create_searchable_document];
    - the Metadata Extractor [_extract_metadata];
    - the Knowledge Store [JIRAKnowledgeBase] over an abstract vector store;
    - the tool functions [add_jira_ticket], [search_jira_tickets] and
      [filter_jira_tickets].

    Effects (the vector store, the logger, the clock, the uuid source) are
    threaded explicitly through a small state-and-exception monad. *)

From Stdlib Require Import ZArith NArith List Bool Lia String Ascii.
From Stdlib Require Import SpecFloat.
Import ListNotations.
Open Scope Z_scope.

Set Implicit Arguments.

(* ================================================================= *)
(** * Part I. The model                                               *)
(* ================================================================= *)

(** ** Python strings

    A Python [str] is a sequence of Unicode code points.  A code point is
    kept as a natural number in [N]; source literals, which are ASCII, are
    written through [lit]. *)

Definition char := N.
Definition str := list char.

Definition lit (s : string) : str :=
  List.map N_of_ascii (list_ascii_of_string s).

Definition newline : char := 10%N.

Definition str_eqb (a b : str) : bool :=
  if list_eq_dec N.eq_dec a b then true else false.

(** [str.isspace] on one code point: the characters removed by [str.strip()]
    when it is called without argument. *)
Definition is_space (c : char) : bool :=
  ((9 <=? c) && (c <=? 13) || (28 <=? c) && (c <=? 32)
   || (c =? 133) || (c =? 160) || (c =? 5760)
   || (8192 <=? c) && (c <=? 8202)
   || (c =? 8232) || (c =? 8233) || (c =? 8239) || (c =? 8287)
   || (c =? 12288))%N.

Fixpoint lstrip (s : str) : str :=
  match s with
  | c :: s' => if is_space c then lstrip s' else s
  | [] => []
  end.

Definition rstrip (s : str) : str := rev (lstrip (rev s)).

(** [s.strip()] *)
Definition strip (s : str) : str := rstrip (lstrip s).

(** [starts p s]: [s.startswith(p)]. *)
Fixpoint starts (p s : str) : bool :=
  match p, s with
  | [], _ => true
  | c :: p', d :: s' => (c =? d)%N && starts p' s'
  | _ :: _, [] => false
  end.

(** [s.replace(old, new)] for a non-empty [old]: a left-to-right scan that
    replaces every non-overlapping occurrence.  [skip] counts the characters
    of a matched occurrence that remain to be dropped. *)
Fixpoint replace_from (old new : str) (skip : nat) (s : str) : str :=
  match s with
  | [] => []
  | c :: s' =>
      match skip with
      | S k => replace_from old new k s'
      | O =>
          if starts old s
          then new ++ replace_from old new (pred (List.length old)) s'
          else c :: replace_from old new O s'
      end
  end.

(** With an empty [old] Python inserts [new] before every character and at
    the end. *)
Fixpoint intersperse_all (new s : str) : str :=
  match s with
  | [] => new
  | c :: s' => new ++ c :: intersperse_all new s'
  end.

Definition replace (old new s : str) : str :=
  match old with
  | [] => intersperse_all new s
  | _ :: _ => replace_from old new O s
  end.

(** [s.split(sep)] for a non-empty separator; [cur] is the segment being
    read, in reverse.  The result always has at least one segment. *)
Fixpoint split_from (sep : str) (skip : nat) (cur : str) (s : str)
  : list str :=
  match s with
  | [] => [rev cur]
  | c :: s' =>
      match skip with
      | S k => split_from sep k cur s'
      | O =>
          if starts sep s
          then rev cur :: split_from sep (pred (List.length sep)) [] s'
          else split_from sep O (c :: cur) s'
      end
  end.

Definition split (sep s : str) : list str := split_from sep O [] s.

(** [sep.join(parts)] *)
Fixpoint join (sep : str) (parts : list str) : str :=
  match parts with
  | [] => []
  | [p] => p
  | p :: rest => p ++ sep ++ join sep rest
  end.

(** Decimal rendering of an integer, [str(n)] for a Python [int]. *)
Definition digit_char (d : Z) : char := Z.to_N (48 + d).

Fixpoint digits_fuel (fuel : nat) (n : Z) (acc : str) : str :=
  match fuel with
  | O => acc
  | S f =>
      if n <? 10 then digit_char n :: acc
      else digits_fuel f (n / 10) (digit_char (n mod 10) :: acc)
  end.

Definition str_of_int (n : Z) : str :=
  if n <? 0
  then lit "-" ++ digits_fuel (S (Z.to_nat (Z.log2 (- n)))) (- n) []
  else digits_fuel (S (Z.to_nat (Z.log2 n))) n [].

(** ** Python floats

    A [float] is an IEEE 754 binary64 value.  Every finite binary64 value is
    an integer multiple of [2^-1074], so a finite float is kept as that
    integer: [FFin n] stands for [n * 2^-1074].  The two zeros are not
    distinguished (they compare equal and are both falsy in Python).
    Arithmetic rounds the exact result to nearest, ties to even, on a 53-bit
    significand, and overflows to an infinity from [2^1024] on. *)

Inductive float64 : Type :=
| FNaN
| FInf (negative : bool)
| FFin (n : Z).

Definition unit_exp : Z := 1074.
Definition f_one : float64 := FFin (2 ^ unit_exp).
Definition f_zero : float64 := FFin 0.

(** The largest finite binary64 value, [(2^53 - 1) * 2^971], in units. *)
Definition max_units : Z := (2 ^ 53 - 1) * 2 ^ 2045.

(** [n] is the image of a binary64 value: a 53-bit significand times a
    power of two of the unit. *)
Definition is_binary64_units (n : Z) : Prop :=
  exists m e, n = m * 2 ^ e /\ Z.abs m < 2 ^ 53 /\ 0 <= e <= 2045.

Definition is_binary64 (x : float64) : Prop :=
  match x with
  | FFin n => is_binary64_units n
  | _ => True
  end.

(** Division of [a] by [b > 0] rounded to the nearest integer, ties to the
    even one. *)
Definition div_rne (a b : Z) : Z :=
  let q := a / b in
  match 2 * (a mod b) ?= b with
  | Lt => q
  | Gt => q + 1
  | Eq => if Z.even q then q else q + 1
  end.

(** The exponent of the binade of [a / b >= 0]: spacing [2^k] units. *)
Definition binade (a b : Z) : Z := Z.max 0 (Z.log2 (a / b) - 52).

(** Round the rational [a / b] (in units, [b > 0]) to a 53-bit significand,
    with no bound on the exponent. *)
Definition round_pos (a b : Z) : Z :=
  let k := binade a b in div_rne a (b * 2 ^ k) * 2 ^ k.

Definition round_units (a b : Z) : Z :=
  if a <? 0 then - round_pos (- a) b else round_pos a b.

Definition overflow_units : Z := 2 ^ 2098.

Definition fround (a b : Z) : float64 :=
  let r := round_units a b in
  if overflow_units <=? Z.abs r then FInf (r <? 0) else FFin r.

(** [x - y] *)
Definition fsub (x y : float64) : float64 :=
  match x, y with
  | FNaN, _ | _, FNaN => FNaN
  | FInf s, FInf t => if Bool.eqb s t then FNaN else FInf s
  | FInf s, FFin _ => FInf s
  | FFin _, FInf t => FInf (negb t)
  | FFin a, FFin b => fround (a - b) 1
  end.

(** [x <= y]; every comparison with a NaN is false. *)
Definition fle (x y : float64) : bool :=
  match x, y with
  | FNaN, _ | _, FNaN => false
  | FInf true, _ => true
  | _, FInf false => true
  | FInf false, _ => false
  | _, FInf true => false
  | FFin a, FFin b => a <=? b
  end.

(** [bool(x)] for a float: false exactly at zero. *)
Definition float_truthy (x : float64) : bool :=
  match x with
  | FFin n => negb (n =? 0)
  | _ => true
  end.

(** The value of a finite [spec_float] of the standard library in units, to
    relate the model to the library's reference operations. *)
Definition of_spec_float (f : spec_float) : float64 :=
  match f with
  | S754_zero _ => FFin 0
  | S754_infinity s => FInf s
  | S754_nan => FNaN
  | S754_finite s m e =>
      FFin ((if s then -1 else 1) * Z.pos m * 2 ^ (e + unit_exp))
  end.

(** ** Exceptions *)

Inductive exn : Type :=
| AttributeError (msg : str)
| IndexError (msg : str)
| OverflowError (msg : str)
| JSONDecodeError (msg : str)
| StoreError (msg : str).   (* any exception raised by the vector store *)

(** [str(e)] *)
Definition exn_str (e : exn) : str :=
  match e with
  | AttributeError m | IndexError m | OverflowError m
  | JSONDecodeError m | StoreError m => m
  end.

Definition result (A : Type) : Type := (exn + A)%type.

(** [round(x, ndigits)] for [0 <= ndigits]: the exact value is rounded to
    the nearest multiple of [10^-ndigits], ties to even, and the decimal
    obtained is converted back to the nearest float.  Non-finite values are
    returned unchanged; beyond 323 digits the value itself is returned. *)
Definition py_round (x : float64) (ndigits : nat) : result float64 :=
  match x with
  | FFin n =>
      if (323 <? ndigits)%nat then inr x
      else
        let p := 10 ^ Z.of_nat ndigits in
        let t := div_rne (p * n) (2 ^ unit_exp) in
        match fround (t * 2 ^ unit_exp) p with
        | FInf _ =>
            inl (OverflowError (lit "rounded value too large to represent"))
        | r => inr r
        end
  | _ => inr x
  end.

(** ** JSON-shaped Python values

    What [json.loads] can return and what the tool functions hand back:
    [None], booleans, integers, floats, strings, lists and dictionaries with
    string keys.  A dictionary is kept as an association list in insertion
    order, looked up by its first matching key. *)

#[warnings="-register-all"]
Inductive pyval : Type :=
| PyNone
| PyBool (b : bool)
| PyInt (n : Z)
| PyFloat (x : float64)
| PyStr (s : str)
| PyList (items : list pyval)
| PyDict (entries : list (str * pyval)).

Definition dict := list (str * pyval).

Definition empty_str : pyval := PyStr [].

(** [d.get(k)] as an option and [d.get(k, default)]. *)
Fixpoint dict_get (d : dict) (k : str) : option pyval :=
  match d with
  | [] => None
  | (k', v) :: d' => if str_eqb k' k then Some v else dict_get d' k
  end.

Definition get_or (d : dict) (k : str) (default : pyval) : pyval :=
  match dict_get d k with
  | Some v => v
  | None => default
  end.

(** [bool(v)] *)
Definition truthy (v : pyval) : bool :=
  match v with
  | PyNone => false
  | PyBool b => b
  | PyInt n => negb (n =? 0)
  | PyFloat x => float_truthy x
  | PyStr s => match s with [] => false | _ => true end
  | PyList l => match l with [] => false | _ => true end
  | PyDict d => match d with [] => false | _ => true end
  end.

(** [a or b] *)
Definition py_or (a b : pyval) : pyval := if truthy a then a else b.

Definition is_str (v : pyval) : bool :=
  match v with PyStr _ => true | _ => false end.

Definition is_dict (v : pyval) : bool :=
  match v with PyDict _ => true | _ => false end.

(** [type(v).__name__] *)
Definition type_name (v : pyval) : str :=
  match v with
  | PyNone => lit "NoneType"
  | PyBool _ => lit "bool"
  | PyInt _ => lit "int"
  | PyFloat _ => lit "float"
  | PyStr _ => lit "str"
  | PyList _ => lit "list"
  | PyDict _ => lit "dict"
  end.

(** What the module takes from the interpreter and its standard library
    without defining it: [repr] of a float (shortest round-trip decimal),
    [repr] of a string (quoting and escaping) and [json.loads]. *)
Class Runtime : Type := {
  float_repr : float64 -> str;
  str_repr : str -> str;
  json_loads : str -> result pyval
}.

Section Rendering.
Context {RT : Runtime}.

(** [repr(v)] *)
Fixpoint py_repr (v : pyval) : str :=
  match v with
  | PyNone => lit "None"
  | PyBool true => lit "True"
  | PyBool false => lit "False"
  | PyInt n => str_of_int n
  | PyFloat x => float_repr x
  | PyStr s => str_repr s
  | PyList l => lit "[" ++ join (lit ", ") (List.map py_repr l) ++ lit "]"
  | PyDict d =>
      lit "{"
      ++ join (lit ", ")
           (List.map (fun kv => match kv with
                                | (k, w) => str_repr k ++ lit ": " ++ py_repr w
                                end) d)
      ++ lit "}"
  end.

(** [str(v)], also what an f-string field [{v}] expands to. *)
Definition py_str (v : pyval) : str :=
  match v with
  | PyStr s => s
  | _ => py_repr v
  end.

(** *** Document Builder *)

(** The value shown for a classification label: the [name] of [primary]
    when that field is a dictionary, the flat field [alias] otherwise. *)
Definition name_or_flat (ticket_data : dict) (primary alias : str) : pyval :=
  match dict_get ticket_data primary with
  | Some (PyDict o) => get_or o (lit "name") empty_str
  | _ => get_or ticket_data alias empty_str
  end.

Definition document_template
  (key issue_type priority status summary description : pyval) : str :=
  lit "Ticket: " ++ py_str key ++ [newline]
  ++ lit "Type: " ++ py_str issue_type ++ [newline]
  ++ lit "Priority: " ++ py_str priority ++ [newline]
  ++ lit "Status: " ++ py_str status ++ [newline]
  ++ lit "Summary: " ++ py_str summary ++ [newline]
  ++ lit "Description: " ++ py_str description.

Definition _create_searchable_document (ticket_data : dict) : str :=
  let key := get_or ticket_data (lit "key") empty_str in
  let summary := get_or ticket_data (lit "summary") empty_str in
  let description := get_or ticket_data (lit "description") empty_str in
  let issue_type :=
    name_or_flat ticket_data (lit "issuetype") (lit "issue_type") in
  let status := name_or_flat ticket_data (lit "status") (lit "status") in
  let priority :=
    name_or_flat ticket_data (lit "priority") (lit "priority") in
  strip (document_template key issue_type priority status
           summary description).

(** *** Metadata Extractor *)

(** The local helper [safe_extract(data, key, subkey=None)]. *)
Definition safe_extract (data : dict) (key : str) (subkey : option str)
  : pyval :=
  let value := get_or data key (PyDict []) in
  let stringified :=
    if truthy value then PyStr (py_str value) else empty_str in
  match value with
  | PyDict o =>
      match subkey with
      | Some (c :: sk) => get_or o (c :: sk) empty_str
      | _ => stringified
      end
  | PyStr _ => value
  | _ => stringified
  end.

(** The dictionary literal of [_extract_metadata], before the empty values
    are removed; [now] is [datetime.now().isoformat()]. *)
Definition raw_metadata (now : str) (ticket_data : dict) : dict :=
  let flat k := get_or ticket_data (lit k) empty_str in
  [ (lit "key", flat "key"%string);
    (lit "issue_type",
      py_or (safe_extract ticket_data (lit "issuetype") (Some (lit "name")))
            (flat "issue_type"%string));
    (lit "priority",
      py_or (safe_extract ticket_data (lit "priority") (Some (lit "name")))
            (flat "priority"%string));
    (lit "status",
      py_or (safe_extract ticket_data (lit "status") (Some (lit "name")))
            (flat "status"%string));
    (lit "assignee",
      py_or (safe_extract ticket_data (lit "assignee")
               (Some (lit "displayName")))
            (flat "assignee"%string));
    (lit "reporter",
      py_or (safe_extract ticket_data (lit "reporter")
               (Some (lit "displayName")))
            (flat "reporter"%string));
    (lit "project",
      py_or (safe_extract ticket_data (lit "project") (Some (lit "key")))
            (flat "project"%string));
    (lit "created", flat "created"%string);
    (lit "indexed_at", PyStr now) ].

Definition _extract_metadata (now : str) (ticket_data : dict) : dict :=
  List.filter (fun kv => truthy (snd kv)) (raw_metadata now ticket_data).

End Rendering.

(** ** The vector store and the world the module runs in *)

(** What [collection.query] returns for the single query of a batch: the
    parallel arrays [results['ids'][0]], [results['documents'][0]],
    [results['metadatas'][0]] and [results['distances'][0]]. *)
Record QueryResult : Type := {
  ids : list str;
  documents : list str;
  metadatas : list dict;
  distances : list float64
}.

(** The collaborator: a collection with its own state [S].  Either call may
    raise. *)
Class VectorStore (S : Type) : Type := {
  vs_add : S -> pyval -> str -> dict -> result S;
  vs_query : S -> str -> Z -> dict -> result QueryResult
}.

(** The calls the module issues on its collection. *)
Inductive store_call : Type :=
| CallAdd (id : pyval) (document : str) (metadata : dict)
| CallQuery (query_text : str) (n_results : Z) (where_ : dict).

Inductive level : Type := INFO | ERROR.

Record World (S : Type) : Type := {
  w_store : S;                      (* the collection *)
  w_calls : list store_call;        (* calls issued so far, oldest first *)
  w_log : list (level * str);       (* logger output, oldest first *)
  w_uuid4 : nat -> str;             (* successive [str(uuid.uuid4())] *)
  w_uuid_n : nat;
  w_now : nat -> str;               (* successive [now().isoformat()] *)
  w_now_n : nat
}.

(** A computation that reads and updates the world and may raise. *)
Definition M (S A : Type) : Type := World S -> result A * World S.

Section Monad.
Context {S : Type}.

Definition ret {A} (a : A) : M S A := fun w => (inr a, w).

Definition raise {A} (e : exn) : M S A := fun w => (inl e, w).

Definition bind {A B} (m : M S A) (k : A -> M S B) : M S B :=
  fun w =>
    match m w with
    | (inr a, w') => k a w'
    | (inl e, w') => (inl e, w')
    end.

(** [try: m except Exception as e: handler e] *)
Definition try_except {A} (m : M S A) (handler : exn -> M S A) : M S A :=
  fun w =>
    match m w with
    | (inr a, w') => (inr a, w')
    | (inl e, w') => handler e w'
    end.

Definition lift {A} (r : result A) : M S A := fun w => (r, w).

Definition logger (l : level) (msg : str) : M S unit :=
  fun w =>
    (inr tt,
     {| w_store := w_store w; w_calls := w_calls w;
        w_log := w_log w ++ [(l, msg)];
        w_uuid4 := w_uuid4 w; w_uuid_n := w_uuid_n w;
        w_now := w_now w; w_now_n := w_now_n w |}).

Definition uuid4_str : M S str :=
  fun w =>
    (inr (w_uuid4 w (w_uuid_n w)),
     {| w_store := w_store w; w_calls := w_calls w; w_log := w_log w;
        w_uuid4 := w_uuid4 w; w_uuid_n := Datatypes.S (w_uuid_n w);
        w_now := w_now w; w_now_n := w_now_n w |}).

Definition now_isoformat : M S str :=
  fun w =>
    (inr (w_now w (w_now_n w)),
     {| w_store := w_store w; w_calls := w_calls w; w_log := w_log w;
        w_uuid4 := w_uuid4 w; w_uuid_n := w_uuid_n w;
        w_now := w_now w; w_now_n := Datatypes.S (w_now_n w) |}).

Definition record_call (c : store_call) (s : S) (w : World S) : World S :=
  {| w_store := s; w_calls := w_calls w ++ [c]; w_log := w_log w;
     w_uuid4 := w_uuid4 w; w_uuid_n := w_uuid_n w;
     w_now := w_now w; w_now_n := w_now_n w |}.

Context {VS : VectorStore S}.

(** [self.collection.add(documents=[d], metadatas=[m], ids=[i])] *)
Definition collection_add (document : str) (metadata : dict) (id : pyval)
  : M S unit :=
  fun w =>
    let c := CallAdd id document metadata in
    match vs_add (w_store w) id document metadata with
    | inr s' => (inr tt, record_call c s' w)
    | inl e => (inl e, record_call c (w_store w) w)
    end.

(** [self.collection.query(query_texts=[q], n_results=n, where=f)] *)
Definition collection_query (query : str) (n_results : Z) (where_ : dict)
  : M S QueryResult :=
  fun w =>
    (vs_query (w_store w) query n_results where_,
     record_call (CallQuery query n_results where_) (w_store w) w).

End Monad.

Declare Scope monad_scope.
Delimit Scope monad_scope with monad.
Notation "x <- m ;; k" := (bind m (fun x => k))
  (at level 61, m at next level, right associativity) : monad_scope.
Notation "m ;;; k" := (bind m (fun _ => k))
  (at level 61, right associativity) : monad_scope.
Open Scope monad_scope.

(** ** Knowledge Store: [JIRAKnowledgeBase] *)

(** One entry of [formatted_results] in [search_tickets]. *)
Record SearchResult : Type := {
  ticket_id : str;
  content : str;
  metadata : dict;
  relevance_score : float64
}.

Definition index_error : exn := IndexError (lit "list index out of range").

(** [lst[i]] *)
Definition subscript {A} (l : list A) (i : nat) : result A :=
  match nth_error l i with
  | Some a => inr a
  | None => inl index_error
  end.

(** [round(1 - distance, 3)] *)
Definition score_of_distance (d : float64) : result float64 :=
  py_round (fsub f_one d) 3.

(** The loop [for i, doc_id in enumerate(results['ids'][0])], started at
    index [i] on the remaining identifiers. *)
Fixpoint format_from (r : QueryResult) (i : nat) (rest : list str)
  : result (list SearchResult) :=
  match rest with
  | [] => inr []
  | doc_id :: rest' =>
      match subscript (documents r) i with
      | inl e => inl e
      | inr c =>
          match subscript (metadatas r) i with
          | inl e => inl e
          | inr m =>
              match subscript (distances r) i with
              | inl e => inl e
              | inr d =>
                  match score_of_distance d with
                  | inl e => inl e
                  | inr s =>
                      match format_from r (Datatypes.S i) rest' with
                      | inl e => inl e
                      | inr tl =>
                          inr ({| ticket_id := doc_id; content := c;
                                  metadata := m; relevance_score := s |}
                               :: tl)
                      end
                  end
              end
          end
      end
  end.

Definition formatted_results (r : QueryResult) : result (list SearchResult) :=
  format_from r O (ids r).

(** [filters or {}] for an optional dictionary. *)
Definition or_empty (filters : option dict) : dict :=
  match filters with
  | Some (kv :: f) => kv :: f
  | _ => []
  end.

Section KnowledgeBase.
Context {RT : Runtime} {S : Type} {VS : VectorStore S}.

Definition add_ticket (ticket_data : dict) : M S pyval :=
  u <- uuid4_str ;;
  let ticket_id :=
    get_or ticket_data (lit "key") (PyStr (lit "TICKET-" ++ firstn 8 u)) in
  let document := _create_searchable_document ticket_data in
  now <- now_isoformat ;;
  let metadata := _extract_metadata now ticket_data in
  try_except
    (collection_add document metadata ticket_id ;;;
     logger INFO (lit "Added ticket " ++ py_str ticket_id
                  ++ lit " to knowledge base") ;;;
     ret ticket_id)
    (fun e =>
       logger ERROR (lit "Failed to add ticket " ++ py_str ticket_id
                     ++ lit ": " ++ exn_str e) ;;;
       raise e).

Definition search_tickets (query : str) (n_results : Z)
  (filters : option dict) : M S (list SearchResult) :=
  try_except
    (results <- collection_query query (Z.min n_results 20)
                  (or_empty filters) ;;
     lift (formatted_results results))
    (fun e =>
       logger ERROR (lit "Search failed: " ++ exn_str e) ;;;
       ret []).

End KnowledgeBase.

(** ** Tool functions *)

Definition tagged_error (message : str) : pyval :=
  PyDict [ (lit "status", PyStr (lit "error"));
           (lit "error_message", PyStr message) ].

(** One entry of [formatted_tickets] in [search_jira_tickets]. *)
Record TicketInfo : Type := {
  info_ticket_id : str;
  info_relevance_score : float64;
  info_summary : str;
  info_type : pyval;
  info_priority : pyval;
  info_status : pyval;
  info_assignee : pyval
}.

Definition first_line_summary (content : str) : str :=
  replace (lit "Ticket: ") [] (List.hd [] (split [newline] content)).

Definition ticket_info (r : SearchResult) : TicketInfo :=
  {| info_ticket_id := ticket_id r;
     info_relevance_score := relevance_score r;
     info_summary := first_line_summary (content r);
     info_type :=
       get_or (metadata r) (lit "issue_type") (PyStr (lit "Unknown"));
     info_priority :=
       get_or (metadata r) (lit "priority") (PyStr (lit "Unknown"));
     info_status := get_or (metadata r) (lit "status") (PyStr (lit "Unknown"));
     info_assignee :=
       get_or (metadata r) (lit "assignee") (PyStr (lit "Unassigned")) |}.

Definition ticket_info_dict (t : TicketInfo) : pyval :=
  PyDict [ (lit "ticket_id", PyStr (info_ticket_id t));
           (lit "relevance_score", PyFloat (info_relevance_score t));
           (lit "summary", PyStr (info_summary t));
           (lit "type", info_type t);
           (lit "priority", info_priority t);
           (lit "status", info_status t);
           (lit "assignee", info_assignee t) ].

(** The icon that opens a ticket line, as the source file has it. *)
Definition ticket_icon : str := [63743; 252; 233; 180]%N.

Definition len {A} (l : list A) : Z := Z.of_nat (List.length l).

Section Tools.
Context {RT : Runtime} {S : Type} {VS : VectorStore S}.

(** [v.get]: only a dictionary has the method. *)
Definition as_dict (v : pyval) : result dict :=
  match v with
  | PyDict d => inr d
  | _ => inl (AttributeError (lit "'" ++ type_name v
                              ++ lit "' object has no attribute 'get'"))
  end.

Definition add_jira_ticket (ticket_json : str) : M S pyval :=
  try_except
    (ticket <- lift (json_loads ticket_json) ;;
     ticket_data <- lift (as_dict ticket) ;;
     if negb (truthy (get_or ticket_data (lit "key") PyNone))
        && negb (truthy (get_or ticket_data (lit "summary") PyNone))
     then
       ret (tagged_error
              (lit "Ticket must have either 'key' or 'summary' field"))
     else
       ticket_id <- add_ticket ticket_data ;;
       ret (PyDict
              [ (lit "status", PyStr (lit "success"));
                (lit "result",
                  PyStr (lit "Successfully added ticket "
                         ++ py_str ticket_id
                         ++ lit " to knowledge base"));
                (lit "ticket_id", ticket_id) ]))
    (fun e =>
       match e with
       | JSONDecodeError _ =>
           ret (tagged_error (lit "Invalid JSON format provided"))
       | _ =>
           ret (tagged_error (lit "Failed to add ticket: " ++ exn_str e))
       end).

Definition search_digest_entry (t : TicketInfo) : str :=
  ticket_icon ++ lit " **" ++ info_ticket_id t ++ lit "** (Relevance: "
  ++ float_repr (info_relevance_score t) ++ lit ")" ++ [newline]
  ++ lit "   Type: " ++ py_str (info_type t)
  ++ lit " | Priority: " ++ py_str (info_priority t)
  ++ lit " | Status: " ++ py_str (info_status t) ++ [newline]
  ++ lit "   Assignee: " ++ py_str (info_assignee t) ++ [newline]
  ++ lit "   " ++ info_summary t ++ [newline; newline].

Definition search_jira_tickets (query : str) (limit : Z) : M S pyval :=
  try_except
    (let limit := Z.min (Z.max 1 limit) 20 in
     results <- search_tickets query limit None ;;
     match results with
     | [] =>
         ret (PyDict
                [ (lit "status", PyStr (lit "success"));
                  (lit "result",
                    PyStr (lit "No tickets found matching your query."));
                  (lit "total_found", PyInt 0);
                  (lit "tickets", PyList []) ])
     | _ :: _ =>
         let formatted_tickets := List.map ticket_info results in
         let summary :=
           lit "Found " ++ str_of_int (len results)
           ++ lit " relevant tickets:" ++ [newline; newline]
           ++ List.concat (List.map search_digest_entry formatted_tickets) in
         ret (PyDict
                [ (lit "status", PyStr (lit "success"));
                  (lit "result", PyStr summary);
                  (lit "total_found", PyInt (len results));
                  (lit "tickets",
                    PyList (List.map ticket_info_dict formatted_tickets)) ])
     end)
    (fun e => ret (tagged_error (lit "Search failed: " ++ exn_str e))).

(** [filters[name] = value] when [value] is non-empty. *)
Definition criterion (name : string) (value : str) : dict :=
  match value with
  | [] => []
  | _ :: _ => [(lit name, PyStr value)]
  end.

Definition build_filters (issue_type priority status assignee : str) : dict :=
  criterion "issue_type" issue_type ++ criterion "priority" priority
  ++ criterion "status" status ++ criterion "assignee" assignee.

Definition filter_desc (filters : dict) : str :=
  join (lit ", ")
    (List.map (fun kv => fst kv ++ lit "=" ++ py_str (snd kv)) filters).

Definition filter_digest_entry (r : SearchResult) : str :=
  ticket_icon ++ lit " **" ++ ticket_id r ++ lit "**" ++ [newline]
  ++ lit "   Type: "
  ++ py_str (get_or (metadata r) (lit "issue_type") (PyStr (lit "Unknown")))
  ++ [newline] ++ lit "   Priority: "
  ++ py_str (get_or (metadata r) (lit "priority") (PyStr (lit "Unknown")))
  ++ [newline] ++ lit "   Status: "
  ++ py_str (get_or (metadata r) (lit "status") (PyStr (lit "Unknown")))
  ++ [newline] ++ lit "   Assignee: "
  ++ py_str (get_or (metadata r) (lit "assignee") (PyStr (lit "Unassigned")))
  ++ [newline; newline].

Definition filter_jira_tickets (issue_type priority status assignee : str)
  : M S pyval :=
  try_except
    (let filters := build_filters issue_type priority status assignee in
     match filters with
     | [] =>
         ret (tagged_error
                (lit "At least one filter criteria must be provided"))
     | _ :: _ =>
         results <- search_tickets [] 20 (Some filters) ;;
         match results with
         | [] =>
             ret (PyDict
                    [ (lit "status", PyStr (lit "success"));
                      (lit "result",
                        PyStr (lit "No tickets found matching filters: "
                               ++ filter_desc filters));
                      (lit "total_found", PyInt 0) ])
         | _ :: _ =>
             ret (PyDict
                    [ (lit "status", PyStr (lit "success"));
                      (lit "result",
                        PyStr (lit "Found " ++ str_of_int (len results)
                               ++ lit " tickets matching filters ("
                               ++ filter_desc filters ++ lit "):"
                               ++ [newline; newline]
                               ++ List.concat
                                    (List.map filter_digest_entry results)));
                      (lit "total_found", PyInt (len results)) ])
         end
     end)
    (fun e =>
       ret (tagged_error (lit "Filter operation failed: " ++ exn_str e))).

End Tools.

(** ** Fixtures for the examples

    A runtime and a vector store on which the functions above can be
    evaluated.  The store keeps its rows in a list, answers a query with the
    first [n_results] rows whose metadata carries every pair of the filter,
    all at distance zero, and refuses a non-positive [n_results].  The
    parser knows the JSON texts the examples use. *)

Definition ticket_T1 : dict :=
  [ (lit "key", PyStr (lit "T-1"));
    (lit "summary", PyStr (lit "X"));
    (lit "issue_type", PyStr (lit "Bug")) ].

(** A JSON string literal: the text between double quotes. *)
Definition quoted (s : string) : str := [34%N] ++ lit s ++ [34%N].

Definition ticket_T1_json : str :=
  lit "{" ++ quoted "key" ++ lit ": " ++ quoted "T-1" ++ lit ", "
  ++ quoted "summary" ++ lit ": " ++ quoted "X" ++ lit ", "
  ++ quoted "issue_type" ++ lit ": " ++ quoted "Bug" ++ lit "}".

Definition ticket_empty_key : dict :=
  [ (lit "key", PyStr []); (lit "summary", PyStr (lit "X")) ].

Definition ticket_empty_key_json : str :=
  lit "{" ++ quoted "key" ++ lit ": " ++ [34; 34]%N ++ lit ", "
  ++ quoted "summary" ++ lit ": " ++ quoted "X" ++ lit "}".

#[local] Instance table_runtime : Runtime := {
  float_repr := fun _ => lit "0.0";
  str_repr := fun s => lit "'" ++ s ++ lit "'";
  json_loads := fun s =>
    if str_eqb s ticket_T1_json then inr (PyDict ticket_T1)
    else if str_eqb s ticket_empty_key_json then inr (PyDict ticket_empty_key)
    else inl (JSONDecodeError (lit "Expecting value"))
}.

Record Row : Type := {
  row_id : str;
  row_document : str;
  row_metadata : dict
}.

Definition pyval_eqb_flat (a b : pyval) : bool :=
  match a, b with
  | PyStr s, PyStr t => str_eqb s t
  | PyInt n, PyInt m => n =? m
  | PyBool x, PyBool y => Bool.eqb x y
  | PyNone, PyNone => true
  | _, _ => false
  end.

Definition row_matches (where_ : dict) (r : Row) : bool :=
  forallb (fun kv =>
             match dict_get (row_metadata r) (fst kv) with
             | Some v => pyval_eqb_flat v (snd kv)
             | None => false
             end) where_.

Definition list_store_add (s : list Row) (id : pyval) (document : str)
  (meta : dict) : result (list Row) :=
  match id with
  | PyStr i =>
      inr (s ++ [{| row_id := i; row_document := document;
                    row_metadata := meta |}])
  | _ => inl (StoreError (lit "Expected ID to be a str"))
  end.

Definition list_store_query (s : list Row) (query : str) (n_results : Z)
  (where_ : dict) : result QueryResult :=
  if n_results <=? 0
  then inl (StoreError
              (lit "Number of requested results cannot be negative, or zero"))
  else
    let hits :=
      firstn (Z.to_nat n_results) (List.filter (row_matches where_) s) in
    inr {| ids := List.map row_id hits;
           documents := List.map row_document hits;
           metadatas := List.map row_metadata hits;
           distances := List.map (fun _ => f_zero) hits |}.

#[local] Instance list_store : VectorStore (list Row) := {
  vs_add := list_store_add;
  vs_query := list_store_query
}.

(** A store whose every call fails. *)
#[local] Instance failing_store : VectorStore unit := {
  vs_add := fun _ _ _ _ => inl (StoreError (lit "unavailable"));
  vs_query := fun _ _ _ _ => inl (StoreError (lit "unavailable"))
}.

Definition initial_world {S : Type} (s : S) : World S :=
  {| w_store := s; w_calls := []; w_log := [];
     w_uuid4 := fun _ => lit "123e4567-e89b-42d3-a456-426614174000";
     w_uuid_n := O;
     w_now := fun _ => lit "2024-01-15T10:30:00.000000";
     w_now_n := O |}.

(** A ticket whose key spans two lines. *)
Definition ticket_two_line_key : dict :=
  [ (lit "key", PyStr (lit "A" ++ [newline] ++ lit "B")) ].

(** A ticket in the tracker's API spelling, with a plain string type. *)
Definition ticket_string_issuetype : dict :=
  [ (lit "key", PyStr (lit "T-1")); (lit "issuetype", PyStr (lit "Bug")) ].

(** A ticket whose assignee object has a [name] but no [displayName]. *)
Definition ticket_assignee_object : dict :=
  [ (lit "key", PyStr (lit "T-1"));
    (lit "assignee", PyDict [ (lit "name", PyStr (lit "bob")) ]) ].

(** The list store after the ticket T-1 has been added through the tool. *)
Definition world_with_T1 : World (list Row) :=
  snd (add_jira_ticket ticket_T1_json (initial_world [])).

(** The four criteria of the filter tool as pairs, in the order the tool
    tests them. *)
Definition criteria (issue_type priority status assignee : str) : dict :=
  [ (lit "issue_type", PyStr issue_type);
    (lit "priority", PyStr priority);
    (lit "status", PyStr status);
    (lit "assignee", PyStr assignee) ].

(** A field of the dictionary a tool returned. *)
Definition field (r : result pyval) (k : str) : option pyval :=
  match r with
  | inr (PyDict d) => dict_get d k
  | _ => None
  end.

(** Sample floats in the standard library's representation. *)
Definition reference_samples : list spec_float :=
  [ S754_finite false 7205759403792794 (-56);
    S754_finite false 4503599627370496 (-54);
    S754_finite false 4611686018427388 (-63);
    S754_finite false 9002695655113622 (-53);
    S754_finite false 4503599627370496 (-53);
    S754_finite false 4503599627370496 (-52);
    S754_zero false;
    S754_finite false 5629499534213120 (-51);
    S754_finite false 2024 (-1074);
    S754_finite false 6004799503160661 (-54);
    S754_finite false 6724873095247260 (944);
    S754_finite false 9007199254740991 (971);
    S754_finite true 6755399441055744 (-53);
    S754_finite false 1 (-1074);
    S754_finite false 8998192055486250 (-54);
    S754_finite false 9004947454927307 (-51);
    S754_finite false 4768371582031250 (21) ].

(** Pairs [(x, round(x, 3))] as the interpreter computes them, each float
    given as [(m, e)] for [m * 2^e] units. *)
Definition round_samples : list ((Z * Z) * (Z * Z)) :=
  [ ((8106479329266893, 1021), (8106479329266893, 1021));
    ((7, 1070), (7890306547153109, 1020));
    ((1, 1070), (1116892707587883, 1020));
    ((1152921504606847, 1013), (1152921504606847, 1014));
    ((3458764513820541, 1013), (1152921504606847, 1015));
    ((5764607523034235, 1013), (3458764513820541, 1014));
    ((4501347827556811, 1022), (1, 1074));
    ((4499096027743125, 1021), (4494592428115755, 1021));
    ((129453826111917, 1054), (4142522435566043, 1049));
    ((-3, 1072), (-3, 1072));
    ((-7378697629483821, 1010), (0, 0));
    ((2384185791015625, 1096), (2384185791015625, 1096));
    ((3011782250804019, 1024), (3011782250804019, 1024));
    ((9007199254740991, 2045), (9007199254740991, 2045)) ].

Definition sf_one : spec_float := S754_finite false 4503599627370496 (-52).

Definition of_units (p : Z * Z) : float64 := FFin (fst p * 2 ^ snd p).

(** Further fixtures: JSON texts outside the valid tickets, and a store
    answer whose arrays do not line up. *)

Definition ticket_no_key : dict := [ (lit "summary", PyStr (lit "X")) ].

Definition ticket_no_key_json : str :=
  lit "{" ++ quoted "summary" ++ lit ": " ++ quoted "X" ++ lit "}".

Definition wide_runtime : Runtime :=
  {| float_repr := fun _ => lit "0.0";
     str_repr := fun s => lit "'" ++ s ++ lit "'";
     json_loads := fun s =>
       if str_eqb s (lit "{}") then inr (PyDict [])
       else if str_eqb s (lit "[1]") then inr (PyList [PyInt 1])
       else if str_eqb s ticket_no_key_json then inr (PyDict ticket_no_key)
       else json_loads (Runtime := table_runtime) s |}.

Definition ragged_result : QueryResult :=
  {| ids := [lit "T-1"; lit "T-2"];
     documents := [lit "Ticket: T-1"];
     metadatas := [[]; []];
     distances := [FFin 0; FFin 0] |}.

Definition ragged_store : VectorStore unit :=
  {| vs_add := fun _ _ _ _ => inr tt;
     vs_query := fun _ _ _ _ => inr ragged_result |}.

(** The tagged results of the search and filter tools when nothing is
    found. *)
Definition nothing_found : pyval :=
  PyDict [ (lit "status", PyStr (lit "success"));
           (lit "result", PyStr (lit "No tickets found matching your query."));
           (lit "total_found", PyInt 0);
           (lit "tickets", PyList []) ].

Definition nothing_matches {RT : Runtime} (filters : dict) : pyval :=
  PyDict [ (lit "status", PyStr (lit "success"));
           (lit "result",
             PyStr (lit "No tickets found matching filters: "
                    ++ filter_desc filters));
           (lit "total_found", PyInt 0) ].

(** A tool result is tagged: a dictionary whose [status] is "success" or
    "error". *)
Definition tagged (r : result pyval) : Prop :=
  field r (lit "status") = Some (PyStr (lit "success"))
  \/ field r (lit "status") = Some (PyStr (lit "error")).

(** The six fields the Metadata Extractor resolves through [safe_extract]:
    the metadata key, the ticket field read and the sub-key looked up when
    that field is an object. *)
Definition resolved_fields : list (string * string * string) :=
  [ ("issue_type", "issuetype", "name");
    ("priority", "priority", "name");
    ("status", "status", "name");
    ("assignee", "assignee", "displayName");
    ("reporter", "reporter", "displayName");
    ("project", "project", "key") ]%string.

(** The nine keys of the metadata literal, in its order. *)
Definition metadata_keys : list str :=
  List.map lit [ "key"; "issue_type"; "priority"; "status"; "assignee";
                 "reporter"; "project"; "created"; "indexed_at" ]%string.

(** A classification field the Document Builder and the Metadata Extractor
    read alike: absent, a string, or an object with a non-empty string
    [name]. *)
Definition plain_or_named (v : option pyval) : Prop :=
  match v with
  | None => True
  | Some (PyStr _) => True
  | Some (PyDict o) =>
      exists s, dict_get o (lit "name") = Some (PyStr s) /\ s <> []
  | Some _ => False
  end.

(** The same for the type, whose flat spelling is another field. *)
Definition type_plain_or_named (t : dict) : Prop :=
  match dict_get t (lit "issuetype") with
  | None =>
      match dict_get t (lit "issue_type") with
      | None => True
      | Some (PyStr _) => True
      | Some _ => False
      end
  | Some (PyDict o) =>
      exists s, dict_get o (lit "name") = Some (PyStr s) /\ s <> []
  | Some _ => False
  end.

(** The metadata entry of a text: none when the text is empty. *)
Definition nonempty_str (s : str) : option pyval :=
  match s with
  | [] => None
  | _ :: _ => Some (PyStr s)
  end.

(** An API-shaped ticket: type and priority are objects. *)
Definition ticket_api_shaped : dict :=
  [ (lit "key", PyStr (lit "T-2"));
    (lit "issuetype", PyDict [ (lit "name", PyStr (lit "Bug")) ]);
    (lit "priority", PyDict [ (lit "name", PyStr (lit "High")) ]);
    (lit "status", PyStr (lit "Open")) ].

(** The entry of a resolved field before the falsy values are dropped:
    [safe_extract(ticket_data, field, sub) or ticket_data.get(alias, '')]. *)
Definition resolved {RT : Runtime} (t : dict) (field_ sub alias : str)
  : pyval :=
  py_or (safe_extract t field_ (Some sub)) (get_or t alias empty_str).

(** ** Statistics: [get_stats] and [get_jira_statistics] *)

(** The reading half of the collection: [count()] and [get(limit=n)], the
    latter standing for the [metadatas] array of its answer.  Either may
    raise.  These reads are not part of the trace [w_calls], which keeps the
    [add] and [query] calls. *)
Class CollectionReader (S : Type) : Type := {
  vs_count : S -> result Z;
  vs_get : S -> Z -> result (list dict)
}.

(** Equality of dictionary keys.  Python compares [None], booleans,
    integers and floats by value across types ([True == 1 == 1.0]) and
    strings by content; a NaN equals nothing, itself included.  A key is
    given the code of its value: numbers in units of [2^-1074]. *)
Inductive key_code : Type :=
| KNone
| KStr (s : str)
| KNum (units : Z)
| KInf (negative : bool).

Definition key_code_of (v : pyval) : option key_code :=
  match v with
  | PyNone => Some KNone
  | PyBool b => Some (KNum (if b then 2 ^ unit_exp else 0))
  | PyInt n => Some (KNum (n * 2 ^ unit_exp))
  | PyFloat (FFin u) => Some (KNum u)
  | PyFloat (FInf s) => Some (KInf s)
  | PyFloat FNaN => None
  | PyStr s => Some (KStr s)
  | PyList _ => None
  | PyDict _ => None
  end.

Definition key_code_eqb (a b : key_code) : bool :=
  match a, b with
  | KNone, KNone => true
  | KStr s, KStr t => str_eqb s t
  | KNum x, KNum y => x =? y
  | KInf s, KInf t => Bool.eqb s t
  | _, _ => false
  end.

(** [a == b] for two keys. *)
Definition py_eq (a b : pyval) : bool :=
  match key_code_of a, key_code_of b with
  | Some x, Some y => key_code_eqb x y
  | _, _ => false
  end.

(** Lists and dictionaries cannot be keys. *)
Definition hashable (v : pyval) : bool :=
  match v with
  | PyList _ | PyDict _ => false
  | _ => true
  end.

(** A histogram: a dictionary from category values to counts, in insertion
    order. *)
Definition hist := list (pyval * Z).

(** [h.get(k, 0)] *)
Fixpoint hist_get (h : hist) (k : pyval) : Z :=
  match h with
  | [] => 0
  | (k', c) :: h' => if py_eq k' k then c else hist_get h' k
  end.

(** [h[k] = c]: the entry of an equal key is updated in place, keeping its
    first key; a new key goes to the end. *)
Fixpoint hist_set (h : hist) (k : pyval) (c : Z) : hist :=
  match h with
  | [] => [(k, c)]
  | (k', c') :: h' =>
      if py_eq k' k then (k', c) :: h' else (k', c') :: hist_set h' k c
  end.

(** What the body of [get_stats] can raise: what the store raises, and the
    type error of an unhashable key. *)
Inductive raised : Type :=
| Raised (e : exn)
| TypeError (msg : str).

Definition raised_str (r : raised) : str :=
  match r with
  | Raised e => exn_str e
  | TypeError msg => msg
  end.

(** [h[k] = h.get(k, 0) + 1] *)
Definition count_key (h : hist) (k : pyval) : raised + hist :=
  if hashable k then inr (hist_set h k (hist_get h k + 1))
  else inl (TypeError (lit "unhashable type: '" ++ type_name k ++ lit "'")).

Record Histograms : Type := {
  issue_types : hist;
  priorities : hist;
  statuses : hist
}.

Definition unknown : pyval := PyStr (lit "Unknown").

(** The three category values of a sampled record. *)
Definition category_values (metadata : dict) : pyval * pyval * pyval :=
  (get_or metadata (lit "issue_type") unknown,
   get_or metadata (lit "priority") unknown,
   get_or metadata (lit "status") unknown).

(** One turn of the loop over [sample['metadatas']]. *)
Definition count_record (h : Histograms) (metadata : dict)
  : raised + Histograms :=
  let '(issue_type, priority, status) := category_values metadata in
  match count_key (issue_types h) issue_type with
  | inl e => inl e
  | inr it =>
      match count_key (priorities h) priority with
      | inl e => inl e
      | inr pr =>
          match count_key (statuses h) status with
          | inl e => inl e
          | inr st =>
              inr {| issue_types := it; priorities := pr; statuses := st |}
          end
      end
  end.

Fixpoint count_records (h : Histograms) (metadatas : list dict)
  : raised + Histograms :=
  match metadatas with
  | [] => inr h
  | m :: rest =>
      match count_record h m with
      | inl e => inl e
      | inr h' => count_records h' rest
      end
  end.

(** The dictionary [get_stats] returns: the total with, when the sample is
    not empty, the sample size and the three histograms; or the total 0 with
    an error message. *)
Inductive Stats : Type :=
| Counted (total_tickets : Z) (sample : option (Z * Histograms))
| Failed (error : str).

Section Statistics.
Context {RT : Runtime} {S : Type} {CR : CollectionReader S}.

(** The body of the [try] of [get_stats]. *)
Definition stats_of_collection (s : S) : raised + Stats :=
  match vs_count s with
  | inl e => inl (Raised e)
  | inr count =>
      match vs_get s (Z.min 50 count) with
      | inl e => inl (Raised e)
      | inr [] => inr (Counted count None)
      | inr (m :: rest) =>
          match count_records
                  {| issue_types := []; priorities := []; statuses := [] |}
                  (m :: rest) with
          | inl e => inl e
          | inr h => inr (Counted count (Some (len (m :: rest), h)))
          end
      end
  end.

Definition get_stats : M S Stats :=
  fun w =>
    match stats_of_collection (w_store w) with
    | inr stats => (inr stats, w)
    | inl e =>
        (logger ERROR (lit "Failed to get stats: " ++ raised_str e) ;;;
         ret (Failed (raised_str e))) w
    end.

(** What [get_jira_statistics] returns: the text with the raw statistics,
    or an error message. *)
Inductive StatsAnswer : Type :=
| StatsSuccess (result_ : str) (raw_stats : Stats)
| StatsError (error_message : str).

(** The icon of the heading and the bullet of an entry, as the source file
    has them. *)
Definition stats_icon : str := [63743; 252; 236; 228]%N.
Definition bullet : str := [8218; 196; 162]%N.

Definition histogram_lines (h : hist) : str :=
  List.concat
    (List.map (fun kc => lit "  " ++ bullet ++ lit " " ++ py_str (fst kc)
                         ++ lit ": " ++ str_of_int (snd kc) ++ [newline])
       h).

Definition statistics_text (total : Z) (sample : option (Z * Histograms))
  : str :=
  stats_icon ++ lit " **JIRA Knowledge Base Statistics**"
  ++ [newline; newline]
  ++ lit "Total Tickets: " ++ str_of_int total ++ [newline]
  ++ (if 0 <? total then
        lit "Sample Size: "
        ++ str_of_int (match sample with Some (n, _) => n | None => 0 end)
        ++ [newline; newline]
        ++ match sample with
           | Some (_, h) =>
               lit "**Issue Types:**" ++ [newline]
               ++ histogram_lines (issue_types h) ++ [newline]
               ++ lit "**Priorities:**" ++ [newline]
               ++ histogram_lines (priorities h) ++ [newline]
               ++ lit "**Statuses:**" ++ [newline]
               ++ histogram_lines (statuses h)
           | None => []
           end
      else []).

Definition get_jira_statistics : M S StatsAnswer :=
  try_except
    (stats <- get_stats ;;
     match stats with
     | Failed error => ret (StatsError error)
     | Counted total sample =>
         ret (StatsSuccess (statistics_text total sample) stats)
     end)
    (fun e =>
       ret (StatsError (lit "Failed to get statistics: " ++ exn_str e))).

End Statistics.

(** A reader for the list store, and one whose reads fail. *)
Definition list_reader : CollectionReader (list Row) :=
  {| vs_count := fun s => inr (len s);
     vs_get := fun s n =>
       inr (List.map row_metadata (firstn (Z.to_nat n) s)) |}.

Definition failing_reader : CollectionReader unit :=
  {| vs_count := fun _ => inl (StoreError (lit "unavailable"));
     vs_get := fun _ _ => inl (StoreError (lit "unavailable")) |}.

(** Three rows: two bugs and a record without type. *)
Definition sample_rows : list Row :=
  [ {| row_id := lit "T-1"; row_document := lit "Ticket: T-1";
       row_metadata := [ (lit "issue_type", PyStr (lit "Bug"));
                         (lit "priority", PyStr (lit "High")) ] |};
    {| row_id := lit "T-2"; row_document := lit "Ticket: T-2";
       row_metadata := [ (lit "issue_type", PyStr (lit "Bug")) ] |};
    {| row_id := lit "T-3"; row_document := lit "Ticket: T-3";
       row_metadata := [ (lit "status", PyStr (lit "Open")) ] |} ].

(** A row whose priority is an object. *)
Definition object_rows : list Row :=
  [ {| row_id := lit "T-1"; row_document := lit "Ticket: T-1";
       row_metadata :=
         [ (lit "priority", PyDict [ (lit "id", PyInt 3) ]) ] |} ].

Definition indicator (b : bool) : Z := if b then 1 else 0.

(** How many sampled records carry the category value [k], in Python's
    sense of equality. *)
Definition occurrences (category : dict -> pyval) (k : pyval)
  (metadatas : list dict) : Z :=
  len (List.filter (fun m => py_eq (category m) k) metadatas).

Definition issue_type_of (m : dict) : pyval :=
  get_or m (lit "issue_type") unknown.
Definition priority_of (m : dict) : pyval :=
  get_or m (lit "priority") unknown.
Definition status_of (m : dict) : pyval :=
  get_or m (lit "status") unknown.

(** The sum of the counts of a histogram. *)
Definition hist_total (h : hist) : Z :=
  List.fold_right (fun kc acc => snd kc + acc) 0 h.

(** Every category value of the record can be a key. *)
Definition categories_hashable (m : dict) : bool :=
  hashable (issue_type_of m) && hashable (priority_of m)
  && hashable (status_of m).

(** The identifier under which a ticket dictionary of the search tool's
    answer is listed. *)
Definition listed_id (ticket : pyval) : option pyval :=
  match ticket with
  | PyDict d => dict_get d (lit "ticket_id")
  | _ => None
  end.

(** A field that is absent or the empty string. *)
Definition absent_or_empty (v : option pyval) : Prop :=
  v = None \/ v = Some (PyStr []).

(** The distance 2.0. *)
Definition f_two : float64 := FFin (2 * 2 ^ unit_exp).

(** A ticket with a key and nothing else. *)
Definition ticket_bare : dict := [ (lit "key", PyStr (lit "T-9")) ].

(** ** Vocabulary of the statements *)

(** A text without a line break. *)
Definition newline_free (s : str) : Prop := ~ In newline s.

(** [document.split('\n')] *)
Definition lines (document : str) : list str := split [newline] document.

Section DocumentFields.
Context {RT : Runtime}.

(** The six values the template of the Document Builder is filled with,
    as they are rendered. *)
Definition shown_key (t : dict) : str :=
  py_str (get_or t (lit "key") empty_str).
Definition shown_type (t : dict) : str :=
  py_str (name_or_flat t (lit "issuetype") (lit "issue_type")).
Definition shown_priority (t : dict) : str :=
  py_str (name_or_flat t (lit "priority") (lit "priority")).
Definition shown_status (t : dict) : str :=
  py_str (name_or_flat t (lit "status") (lit "status")).
Definition shown_summary (t : dict) : str :=
  py_str (get_or t (lit "summary") empty_str).
Definition shown_description (t : dict) : str :=
  py_str (get_or t (lit "description") empty_str).
End DocumentFields.

Section Worlds.
Context {S : Type}.

(** The world after a query has been issued on the collection. *)
Definition queried (query : str) (n : Z) (f : dict) (w : World S)
  : World S :=
  record_call (CallQuery query n f) (w_store w) w.

(** The world after one more line of log. *)
Definition logged (l : level) (msg : str) (w : World S) : World S :=
  snd (logger l msg w).
End Worlds.

Section AddedWorlds.
Context {RT : Runtime} {S : Type}.

(** The identifier [add_ticket] gives a ticket in the world [w]: its
    [key] when the mapping has one, the synthesized one otherwise. *)
Definition identifier_in (w : World S) (t : dict) : pyval :=
  get_or t (lit "key")
    (PyStr (lit "TICKET-" ++ firstn 8 (w_uuid4 w (w_uuid_n w)))).

(** The metadata [add_ticket] extracts in the world [w]. *)
Definition metadata_in (w : World S) (t : dict) : dict :=
  _extract_metadata (w_now w (w_now_n w)) t.

(** The [add] call [add_ticket] issues for [t] in the world [w]. *)
Definition add_call (w : World S) (t : dict) : store_call :=
  CallAdd (identifier_in w t) (_create_searchable_document t)
    (metadata_in w t).
End AddedWorlds.

(** A float within the finite range of binary64, or not finite. *)
Definition in_range (x : float64) : Prop :=
  match x with
  | FFin n => - max_units <= n <= max_units
  | _ => True
  end.

(** The arrays of a query result line up, one row per identifier. *)
Definition parallel (r : QueryResult) : Prop :=
  List.length (documents r) = List.length (ids r)
  /\ List.length (metadatas r) = List.length (ids r)
  /\ List.length (distances r) = List.length (ids r).

(** The result [res] carries the score of the distance [d]. *)
Definition scored (res : SearchResult) (d : float64) : Prop :=
  score_of_distance d = inr (relevance_score res).

(** Order of a sequence of floats, between neighbours. *)
Definition nondecreasing (l : list float64) : Prop :=
  forall i a b,
    nth_error l i = Some a -> nth_error l (S i) = Some b -> fle a b = true.

Definition nonincreasing (l : list float64) : Prop :=
  forall i a b,
    nth_error l i = Some a -> nth_error l (S i) = Some b -> fle b a = true.

(** A vector store that answers every query with a prepared result. *)
Definition canned_result : QueryResult :=
  {| ids := [lit "T-1"; lit "T-2"; lit "T-3"];
     documents := [lit "Ticket: T-1"; lit "Ticket: T-2"; lit "Ticket: T-3"];
     metadatas := [[]; []; []];
     distances := [FFin 0; FFin (1 * 2 ^ 1072); FFin (1 * 2 ^ 1073)] |}.

#[local] Instance canned_store : VectorStore unit := {
  vs_add := fun _ _ _ _ => inr tt;
  vs_query := fun _ _ _ _ => inr canned_result
}.

(** What is left of a looked-up value once falsy values are dropped. *)
Definition keep_truthy (o : option pyval) : option pyval :=
  match o with
  | Some v => if truthy v then Some v else None
  | None => None
  end.

(* ================================================================= *)
(** * Part II. Properties                                             *)
(* ================================================================= *)

Unset Implicit Arguments.

(** ** Strings *)

Lemma lstrip_app_nonspace (a : str) (c : char) (b : str) :
  is_space c = false -> lstrip (a ++ c :: b) = lstrip a ++ c :: b.
Proof.
  intros Hc. induction a as [|x a IH]; simpl.
  - now rewrite Hc.
  - destruct (is_space x); [exact IH | reflexivity].
Qed.

Lemma rstrip_app_nonspace (a : str) (c : char) (b : str) :
  is_space c = false -> rstrip (a ++ c :: b) = a ++ c :: rstrip b.
Proof.
  intros Hc. unfold rstrip.
  rewrite rev_app_distr. simpl rev. rewrite <- app_assoc. simpl app.
  rewrite lstrip_app_nonspace by exact Hc.
  rewrite rev_app_distr. simpl rev. rewrite rev_involutive.
  now rewrite <- app_assoc.
Qed.

Lemma lstrip_incl (s : str) (c : char) : In c (lstrip s) -> In c s.
Proof.
  induction s as [|x s IH]; simpl; [tauto|].
  destruct (is_space x); simpl; intuition.
Qed.

Lemma rstrip_incl (s : str) (c : char) : In c (rstrip s) -> In c s.
Proof.
  unfold rstrip. intros H. apply in_rev in H. apply lstrip_incl in H.
  now apply in_rev in H.
Qed.

Lemma split_from_line (a cur rest : str) :
  newline_free a ->
  split_from [newline] 0 cur (a ++ newline :: rest)
  = (rev cur ++ a) :: split_from [newline] 0 [] rest.
Proof.
  revert cur. induction a as [|c a IH]; intros cur Hn.
  - simpl. now rewrite app_nil_r.
  - assert (Hc : c <> newline) by (intros ->; apply Hn; now left).
    assert (Ha : newline_free a) by (intros H; apply Hn; now right).
    change ((c :: a) ++ newline :: rest) with (c :: (a ++ newline :: rest)).
    cbn [split_from starts].
    destruct (N.eqb_spec newline c) as [E|_]; [now symmetry in E|].
    cbn [andb]. rewrite IH by exact Ha.
    cbn [rev]. now rewrite <- app_assoc.
Qed.

Lemma split_from_last (a cur : str) :
  newline_free a -> split_from [newline] 0 cur a = [rev cur ++ a].
Proof.
  revert cur. induction a as [|c a IH]; intros cur Hn.
  - simpl. now rewrite app_nil_r.
  - assert (Hc : c <> newline) by (intros ->; apply Hn; now left).
    assert (Ha : newline_free a) by (intros H; apply Hn; now right).
    cbn [split_from starts].
    destruct (N.eqb_spec newline c) as [E|_]; [now symmetry in E|].
    cbn [andb]. rewrite IH by exact Ha.
    cbn [rev]. now rewrite <- app_assoc.
Qed.

Lemma newline_free_app (a b : str) :
  newline_free a -> newline_free b -> newline_free (a ++ b).
Proof.
  unfold newline_free. intros Ha Hb H. apply in_app_or in H. tauto.
Qed.

Lemma newline_free_label (l : string) (v : str) :
  newline_free (lit l) -> newline_free v -> newline_free (lit l ++ v).
Proof. apply newline_free_app. Qed.

Ltac label_free :=
  unfold newline_free; vm_compute; intuition discriminate.

(** ** Document Builder *)

Section DocumentBuilder.
Context {RT : Runtime}.

Lemma document_template_lines (k ty p s sm d : pyval) :
  document_template k ty p s sm d
  = (lit "Ticket: " ++ py_str k) ++ newline
    :: (lit "Type: " ++ py_str ty) ++ newline
    :: (lit "Priority: " ++ py_str p) ++ newline
    :: (lit "Status: " ++ py_str s) ++ newline
    :: (lit "Summary: " ++ py_str sm) ++ newline
    :: (lit "Description: " ++ py_str d).
Proof.
  unfold document_template. repeat rewrite <- app_assoc. reflexivity.
Qed.

(** Trimming touches the last line only: the template opens with a
    letter, and the colon of the last label stops the trailing scan. *)
Lemma strip_keeps_head (head d : str) :
  strip ((lit "Ticket: " ++ head) ++ lit "Description: " ++ d)
  = (lit "Ticket: " ++ head) ++ rstrip (lit "Description: " ++ d).
Proof.
  unfold strip.
  change (lstrip ((lit "Ticket: " ++ head) ++ lit "Description: " ++ d))
    with ((lit "Ticket: " ++ head) ++ lit "Description: " ++ d).
  change (lit "Description: " ++ d)
    with (lit "Description" ++ 58%N :: 32%N :: d).
  rewrite app_assoc.
  rewrite !rstrip_app_nonspace by reflexivity.
  now rewrite <- app_assoc.
Qed.

Lemma shown_absent (t : dict) (k : str) :
  dict_get t k = None -> py_str (get_or t k empty_str) = [].
Proof. unfold get_or. now intros ->. Qed.

Lemma name_or_flat_absent (t : dict) (primary alias : str) :
  dict_get t primary = None -> dict_get t alias = None ->
  py_str (name_or_flat t primary alias) = [].
Proof. unfold name_or_flat, get_or. now intros -> ->. Qed.

End DocumentBuilder.

(** C6 (as amended).  For every ticket whose six rendered values (key,
    type, priority, status, summary and description) contain no line break,
    the document has exactly six lines, in the fixed label order Ticket,
    Type, Priority, Status, Summary, Description; each line is its label
    followed by the value, the last one with its trailing whitespace
    trimmed.  A field that is absent renders as the empty value on its line:
    the line is still there. *)
Theorem document_six_lines {RT : Runtime} (t : dict) :
  newline_free (shown_key t) ->
  newline_free (shown_type t) ->
  newline_free (shown_priority t) ->
  newline_free (shown_status t) ->
  newline_free (shown_summary t) ->
  newline_free (shown_description t) ->
  lines (_create_searchable_document t)
  = [ lit "Ticket: " ++ shown_key t;
      lit "Type: " ++ shown_type t;
      lit "Priority: " ++ shown_priority t;
      lit "Status: " ++ shown_status t;
      lit "Summary: " ++ shown_summary t;
      rstrip (lit "Description: " ++ shown_description t) ]
  /\ List.length (lines (_create_searchable_document t)) = 6%nat
  /\ (dict_get t (lit "key") = None -> shown_key t = [])
  /\ (dict_get t (lit "issuetype") = None ->
      dict_get t (lit "issue_type") = None -> shown_type t = [])
  /\ (dict_get t (lit "priority") = None -> shown_priority t = [])
  /\ (dict_get t (lit "status") = None -> shown_status t = [])
  /\ (dict_get t (lit "summary") = None -> shown_summary t = [])
  /\ (dict_get t (lit "description") = None -> shown_description t = []).
Proof.
  intros Hk Hty Hp Hs Hsm Hd.
  assert (E : lines (_create_searchable_document t)
              = [ lit "Ticket: " ++ shown_key t;
                  lit "Type: " ++ shown_type t;
                  lit "Priority: " ++ shown_priority t;
                  lit "Status: " ++ shown_status t;
                  lit "Summary: " ++ shown_summary t;
                  rstrip (lit "Description: " ++ shown_description t) ]).
  { unfold lines, _create_searchable_document, document_template.
    cbv zeta.
    fold (shown_key t) (shown_type t) (shown_priority t) (shown_status t)
         (shown_summary t) (shown_description t).
    set (k := shown_key t) in *. set (ty := shown_type t) in *.
    set (p := shown_priority t) in *. set (s := shown_status t) in *.
    set (sm := shown_summary t) in *. set (d := shown_description t) in *.
    replace (lit "Ticket: " ++ k ++ [newline] ++ lit "Type: " ++ ty
             ++ [newline] ++ lit "Priority: " ++ p ++ [newline]
             ++ lit "Status: " ++ s ++ [newline] ++ lit "Summary: " ++ sm
             ++ [newline] ++ lit "Description: " ++ d)
      with ((lit "Ticket: "
             ++ (k ++ newline :: (lit "Type: " ++ ty) ++ newline
                 :: (lit "Priority: " ++ p) ++ newline
                 :: (lit "Status: " ++ s) ++ newline
                 :: (lit "Summary: " ++ sm) ++ [newline]))
            ++ lit "Description: " ++ d)
      by (repeat (rewrite <- ?app_assoc; cbn [app]); reflexivity).
    rewrite strip_keeps_head.
    replace ((lit "Ticket: "
              ++ (k ++ newline :: (lit "Type: " ++ ty) ++ newline
                  :: (lit "Priority: " ++ p) ++ newline
                  :: (lit "Status: " ++ s) ++ newline
                  :: (lit "Summary: " ++ sm) ++ [newline]))
             ++ rstrip (lit "Description: " ++ d))
      with ((lit "Ticket: " ++ k) ++ newline
            :: (lit "Type: " ++ ty) ++ newline
            :: (lit "Priority: " ++ p) ++ newline
            :: (lit "Status: " ++ s) ++ newline
            :: (lit "Summary: " ++ sm) ++ newline
            :: rstrip (lit "Description: " ++ d))
      by (repeat (rewrite <- ?app_assoc; cbn [app]); reflexivity).
    unfold split.
    rewrite !split_from_line
      by (apply newline_free_label; [label_free | assumption]).
    rewrite split_from_last.
    - reflexivity.
    - intros H. apply rstrip_incl in H. revert H.
      apply newline_free_label; [label_free | assumption]. }
  split; [exact E|]. split; [now rewrite E|].
  unfold shown_key, shown_type, shown_priority, shown_status, shown_summary,
    shown_description.
  repeat split; intros;
    first [ now apply shown_absent | now apply name_or_flat_absent ].
Qed.

Lemma document_six_lines_witness :
  List.length (lines (_create_searchable_document ticket_T1)) = 6%nat.
Proof.
  apply (document_six_lines (RT := table_runtime) ticket_T1); label_free.
Defined.

(** C6 as stated fails: summary and description are free of line breaks
    (they are absent), yet a key of two lines gives a seventh line. *)
Lemma six_lines_fails_on_two_line_key :
  newline_free (shown_summary ticket_two_line_key)
  /\ newline_free (shown_description ticket_two_line_key)
  /\ List.length (lines (_create_searchable_document ticket_two_line_key))
     <> 6%nat.
Proof.
  repeat split; label_free.
Qed.

(** C2, at the input where the code departs from it.  A ticket whose
    [issuetype] field is a plain string gets an empty Type line in its
    document, although the Metadata Extractor reads the same field as the
    issue type. *)
Theorem string_issuetype_left_out_of_document {RT : Runtime} (now : str) :
  nth_error (lines (_create_searchable_document ticket_string_issuetype)) 1
  = Some (lit "Type: ")
  /\ dict_get (_extract_metadata now ticket_string_issuetype)
       (lit "issue_type")
     = Some (PyStr (lit "Bug")).
Proof. split; vm_compute; reflexivity. Qed.

(** ** Metadata Extractor *)

Lemma str_eqb_eq (a b : str) : str_eqb a b = true <-> a = b.
Proof.
  unfold str_eqb. destruct (list_eq_dec N.eq_dec a b); split;
    congruence.
Qed.

Lemma str_eqb_refl (a : str) : str_eqb a a = true.
Proof. now apply str_eqb_eq. Qed.

Lemma dict_get_not_in (d : dict) (k : str) :
  ~ In k (List.map fst d) -> dict_get d k = None.
Proof.
  induction d as [|[k' v] d IH]; simpl; intros H; [reflexivity|].
  destruct (str_eqb k' k) eqn:E.
  - apply str_eqb_eq in E. tauto.
  - apply IH. tauto.
Qed.

Lemma dict_get_in (d : dict) (k : str) (v : pyval) :
  dict_get d k = Some v -> In (k, v) d.
Proof.
  induction d as [|[k' w] d IH]; simpl; [discriminate|].
  destruct (str_eqb k' k) eqn:E.
  - apply str_eqb_eq in E. intros [= ->]. left. now subst.
  - intros H. right. now apply IH.
Qed.

(** Looking a key up after the falsy values are removed. *)
Lemma dict_get_filter_truthy (d : dict) (k : str) :
  NoDup (List.map fst d) ->
  dict_get (List.filter (fun kv => truthy (snd kv)) d) k
  = keep_truthy (dict_get d k).
Proof.
  induction d as [|[k' v] d IH]; intros Hnd; [reflexivity|].
  inversion Hnd as [|? ? Hout Hnd']; subst.
  cbn [List.filter snd dict_get].
  destruct (truthy v) eqn:Tv; cbn [dict_get].
  - destruct (str_eqb k' k); [cbn; now rewrite Tv | now apply IH].
  - destruct (str_eqb k' k) eqn:E; [|now apply IH].
    apply str_eqb_eq in E. subst k'. cbn. rewrite Tv.
    apply dict_get_not_in. intros Hin. apply Hout.
    apply in_map_iff in Hin. destruct Hin as [[k1 v1] [E1 Hin]].
    apply filter_In in Hin. apply in_map_iff. exists (k1, v1). tauto.
Qed.

Lemma raw_metadata_keys {RT : Runtime} (now : str) (t : dict) :
  List.map fst (raw_metadata now t)
  = List.map lit [ "key"; "issue_type"; "priority"; "status"; "assignee";
                   "reporter"; "project"; "created"; "indexed_at" ]%string.
Proof. reflexivity. Qed.

Lemma raw_metadata_nodup {RT : Runtime} (now : str) (t : dict) :
  NoDup (List.map fst (raw_metadata now t)).
Proof.
  rewrite raw_metadata_keys.
  repeat (constructor; [vm_compute; intuition discriminate|]).
  constructor.
Qed.

(** C5.  The mapping returned by the Metadata Extractor holds no falsy
    value: a key of the nine-entry literal is kept exactly when its resolved
    value is truthy, and since the timestamp is never empty, [indexed_at] is
    always there. *)
Theorem metadata_has_no_empty_value {RT : Runtime} (now : str) (t : dict) :
  now <> [] ->
  (forall k v, In (k, v) (_extract_metadata now t) -> truthy v = true)
  /\ (forall k,
        dict_get (_extract_metadata now t) k
        = keep_truthy (dict_get (raw_metadata now t) k))
  /\ dict_get (_extract_metadata now t) (lit "indexed_at")
     = Some (PyStr now).
Proof.
  intros Hnow.
  assert (Hget : forall k,
            dict_get (_extract_metadata now t) k
            = keep_truthy (dict_get (raw_metadata now t) k)).
  { intros k. apply dict_get_filter_truthy, raw_metadata_nodup. }
  split; [|split; [exact Hget|]].
  - intros k v Hin. unfold _extract_metadata in Hin.
    apply filter_In in Hin. exact (proj2 Hin).
  - rewrite Hget.
    change (dict_get (raw_metadata now t) (lit "indexed_at"))
      with (Some (PyStr now)).
    cbn. destruct now; [contradiction|reflexivity].
Qed.

Lemma metadata_has_no_empty_value_witness :
  dict_get (_extract_metadata (lit "2024-01-15T10:30:00") ticket_T1)
    (lit "indexed_at")
  = Some (PyStr (lit "2024-01-15T10:30:00")).
Proof.
  apply (metadata_has_no_empty_value (RT := table_runtime)
           (lit "2024-01-15T10:30:00") ticket_T1).
  vm_compute. discriminate.
Defined.

(** C3, at the input where the code departs from it.  An assignee object
    that lacks [displayName] resolves to the empty string, which is falsy, so
    the fallback hands the raw object itself to the metadata: the value
    stored under [assignee] is a dictionary, not a string. *)
Theorem assignee_object_kept_in_metadata {RT : Runtime} (now : str) :
  dict_get (_extract_metadata now ticket_assignee_object) (lit "assignee")
  = Some (PyDict [ (lit "name", PyStr (lit "bob")) ])
  /\ is_str (PyDict [ (lit "name", PyStr (lit "bob")) ]) = false.
Proof. split; vm_compute; reflexivity. Qed.

(** ** Knowledge Store *)

Section SearchTickets.
Context {S : Type} {VS : VectorStore S}.

(** The two ways [search_tickets] can go. *)
Lemma search_tickets_unfold (query : str) (n : Z) (filters : option dict)
  (w : World S) :
  search_tickets query n filters w
  = let w1 := queried query (Z.min n 20) (or_empty filters) w in
    match vs_query (w_store w) query (Z.min n 20) (or_empty filters) with
    | inr r =>
        match formatted_results r with
        | inr l => (inr l, w1)
        | inl e =>
            (inr [], logged ERROR (lit "Search failed: " ++ exn_str e) w1)
        end
    | inl e =>
        (inr [], logged ERROR (lit "Search failed: " ++ exn_str e) w1)
    end.
Proof.
  unfold search_tickets, try_except, bind, collection_query, lift, queried.
  destruct (vs_query _ _ _ _) as [e|r]; [reflexivity|].
  destruct (formatted_results r); reflexivity.
Qed.

Lemma search_tickets_calls (query : str) (n : Z) (filters : option dict)
  (w : World S) :
  w_calls (snd (search_tickets query n filters w))
  = w_calls w ++ [CallQuery query (Z.min n 20) (or_empty filters)].
Proof.
  rewrite search_tickets_unfold. cbv zeta.
  destruct (vs_query _ _ _ _) as [e|r]; [reflexivity|].
  destruct (formatted_results r); reflexivity.
Qed.

Lemma search_tickets_returns (query : str) (n : Z) (filters : option dict)
  (w : World S) :
  exists l, fst (search_tickets query n filters w) = inr l.
Proof.
  rewrite search_tickets_unfold. cbv zeta.
  destruct (vs_query _ _ _ _) as [e|r]; [now exists []|].
  destruct (formatted_results r) as [e|l]; [now exists [] | now exists l].
Qed.

End SearchTickets.

(** C8.  The search operation of the Knowledge Store never raises.  When
    the query on the vector store fails, the failure is logged at error level
    with its message and the caller gets the empty sequence. *)
Theorem search_failure_is_swallowed {S : Type} {VS : VectorStore S}
  (query : str) (n : Z) (filters : option dict) (w : World S) (e : exn) :
  vs_query (w_store w) query (Z.min n 20) (or_empty filters) = inl e ->
  search_tickets query n filters w
  = (inr [],
     logged ERROR (lit "Search failed: " ++ exn_str e)
       (queried query (Z.min n 20) (or_empty filters) w))
  /\ w_log (snd (search_tickets query n filters w))
     = w_log w ++ [(ERROR, lit "Search failed: " ++ exn_str e)]
  /\ forall n' filters' w',
       exists l, fst (search_tickets query n' filters' w') = inr l.
Proof.
  intros H. rewrite search_tickets_unfold. cbv zeta. rewrite H.
  repeat split. intros n' f' w'. apply search_tickets_returns.
Qed.

Lemma search_failure_is_swallowed_witness :
  fst (search_tickets (VS := failing_store) (lit "X") 5 None
         (initial_world tt))
  = inr [].
Proof.
  pose proof (search_failure_is_swallowed (VS := failing_store)
                (lit "X") 5 None (initial_world tt)
                (StoreError (lit "unavailable")) eq_refl) as [H _].
  now rewrite H.
Defined.

(** C4 (as amended).  The clamp to [1, 20] is the search tool's: whatever
    limit the caller gives, [search_jira_tickets] queries the vector store
    for [min(max(1, N), 20)] results, so it behaves for [N > 20] as for 20
    and for [N < 1] as for 1.  The Knowledge Store's own search operation
    applies the upper bound only: it queries for [min(N, 20)] results. *)
Theorem search_limit_clamped {RT : Runtime} {S : Type} {VS : VectorStore S}
  (query : str) (N : Z) (filters : option dict) (w : World S) :
  w_calls (snd (search_jira_tickets query N w))
  = w_calls w ++ [CallQuery query (Z.min (Z.max 1 N) 20) []]
  /\ 1 <= Z.min (Z.max 1 N) 20 <= 20
  /\ search_jira_tickets query N w
     = search_jira_tickets query (Z.min (Z.max 1 N) 20) w
  /\ w_calls (snd (search_tickets query N filters w))
     = w_calls w ++ [CallQuery query (Z.min N 20) (or_empty filters)]
  /\ search_tickets query N filters w
     = search_tickets query (Z.min N 20) filters w.
Proof.
  assert (Hidem : Z.min (Z.min (Z.max 1 N) 20) 20 = Z.min (Z.max 1 N) 20)
    by lia.
  repeat split; try lia.
  - unfold search_jira_tickets, try_except, bind.
    pose proof (search_tickets_calls query (Z.min (Z.max 1 N) 20) None w)
      as Hc.
    pose proof (search_tickets_returns query (Z.min (Z.max 1 N) 20) None w)
      as [l Hl].
    destruct (search_tickets query (Z.min (Z.max 1 N) 20) None w)
      as [[e|l'] w1]; cbn [fst snd] in *; [discriminate|].
    rewrite Hidem in Hc. destruct l'; exact Hc.
  - unfold search_jira_tickets.
    replace (Z.min (Z.max 1 (Z.min (Z.max 1 N) 20)) 20)
      with (Z.min (Z.max 1 N) 20) by lia.
    reflexivity.
  - apply search_tickets_calls.
  - rewrite !search_tickets_unfold.
    replace (Z.min (Z.min N 20) 20) with (Z.min N 20) by lia.
    reflexivity.
Qed.

(** C4 as stated fails on the Knowledge Store's search operation: called
    with the limit 0 it asks the vector store for 0 results, not for 1, and
    on the list store, which like the real one refuses such a request, it
    returns nothing where the limit 1 returns the stored ticket. *)
Lemma store_search_not_clamped_below :
  w_calls (snd (search_tickets (lit "X") 0 None world_with_T1))
  = w_calls world_with_T1 ++ [CallQuery (lit "X") 0 []]
  /\ fst (search_tickets (lit "X") 0 None world_with_T1)
     <> fst (search_tickets (lit "X") 1 None world_with_T1).
Proof.
  split.
  - apply (search_tickets_calls (lit "X") 0 None world_with_T1).
  - vm_compute. discriminate.
Qed.

(** ** Tool functions *)

Lemma build_filters_criteria (it p s a : str) :
  build_filters it p s a
  = List.filter (fun kv => truthy (snd kv)) (criteria it p s a).
Proof. destruct it, p, s, a; reflexivity. Qed.

(** C9.  Without any criterion the filter tool answers with the tagged
    validation error and leaves the world as it was: no query reaches the
    store.  With at least one criterion it runs the search operation once,
    with the empty query, the limit 20 and the mapping made of exactly the
    non-empty criteria. *)
Theorem filter_requires_a_criterion
  {RT : Runtime} {S : Type} {VS : VectorStore S}
  (issue_type priority status assignee : str) (w : World S) :
  filter_jira_tickets [] [] [] [] w
  = (inr (tagged_error
            (lit "At least one filter criteria must be provided")), w)
  /\ build_filters issue_type priority status assignee
     = List.filter (fun kv => truthy (snd kv))
         (criteria issue_type priority status assignee)
  /\ (build_filters issue_type priority status assignee <> [] ->
      let filters := build_filters issue_type priority status assignee in
      snd (filter_jira_tickets issue_type priority status assignee w)
      = snd (search_tickets [] 20 (Some filters) w)
      /\ w_calls (snd (filter_jira_tickets issue_type priority status
                         assignee w))
         = w_calls w ++ [CallQuery [] 20 filters]).
Proof.
  split; [reflexivity|]. split; [apply build_filters_criteria|].
  intros Hne filters.
  assert (Hsnd : snd (filter_jira_tickets issue_type priority status
                        assignee w)
                 = snd (search_tickets [] 20 (Some filters) w)).
  { unfold filter_jira_tickets, try_except, bind. subst filters.
    destruct (build_filters issue_type priority status assignee)
      as [|kv f] eqn:Ef; [congruence|].
    match goal with
    | |- context [search_tickets ?q ?n ?fs w] =>
        destruct (search_tickets q n fs w) as [[e|l] w1]
    end; [reflexivity|].
    destruct l; reflexivity. }
  split; [exact Hsnd|].
  rewrite Hsnd, search_tickets_calls.
  destruct (build_filters issue_type priority status assignee) eqn:E;
    [congruence|reflexivity].
Qed.

Lemma filter_requires_a_criterion_witness :
  w_calls (snd (filter_jira_tickets (lit "Bug") [] [] [] world_with_T1))
  = w_calls world_with_T1
    ++ [CallQuery [] 20 [(lit "issue_type", PyStr (lit "Bug"))]].
Proof.
  apply (filter_requires_a_criterion (RT := table_runtime)
           (lit "Bug") [] [] [] world_with_T1).
  vm_compute. discriminate.
Defined.

Section AddTicket.
Context {RT : Runtime} {S : Type} {VS : VectorStore S}.

(** [add_ticket] issues exactly one call on the collection, and hands
    back the identifier when the store accepts the record. *)
Lemma add_ticket_calls (t : dict) (w : World S) :
  w_calls (snd (add_ticket t w)) = w_calls w ++ [add_call w t].
Proof.
  unfold add_ticket, bind, try_except, collection_add, uuid4_str,
    now_isoformat, add_call, identifier_in, metadata_in.
  cbn [w_store w_uuid4 w_uuid_n w_now w_now_n fst snd].
  destruct (vs_add _ _ _ _); reflexivity.
Qed.

Lemma add_ticket_accepted (t : dict) (w : World S) (s' : S) :
  vs_add (w_store w) (identifier_in w t) (_create_searchable_document t)
    (metadata_in w t) = inr s' ->
  fst (add_ticket t w) = inr (identifier_in w t)
  /\ w_store (snd (add_ticket t w)) = s'.
Proof.
  unfold add_ticket, bind, try_except, collection_add, uuid4_str,
    now_isoformat, identifier_in, metadata_in.
  cbn [w_store w_uuid4 w_uuid_n w_now w_now_n fst snd].
  intros ->. split; reflexivity.
Qed.

Lemma identifier_in_present (w : World S) (t : dict) (v : pyval) :
  dict_get t (lit "key") = Some v -> identifier_in w t = v.
Proof. unfold identifier_in, get_or. now intros ->. Qed.

Lemma identifier_in_absent (w : World S) (t : dict) :
  dict_get t (lit "key") = None ->
  identifier_in w t
  = PyStr (lit "TICKET-" ++ firstn 8 (w_uuid4 w (w_uuid_n w))).
Proof. unfold identifier_in, get_or. now intros ->. Qed.

(** Past parsing and validation the tool is [add_ticket]. *)
Lemma add_jira_ticket_valid (ticket_json : str) (t : dict) (w : World S) :
  json_loads ticket_json = inr (PyDict t) ->
  truthy (get_or t (lit "key") PyNone)
  || truthy (get_or t (lit "summary") PyNone) = true ->
  snd (add_jira_ticket ticket_json w) = snd (add_ticket t w)
  /\ forall id, fst (add_ticket t w) = inr id ->
       fst (add_jira_ticket ticket_json w)
       = inr (PyDict
                [ (lit "status", PyStr (lit "success"));
                  (lit "result",
                    PyStr (lit "Successfully added ticket " ++ py_str id
                           ++ lit " to knowledge base"));
                  (lit "ticket_id", id) ]).
Proof.
  intros Hj Hv. unfold add_jira_ticket, try_except, bind, lift.
  rewrite Hj. cbn [as_dict].
  destruct (truthy (get_or t (lit "key") PyNone));
    destruct (truthy (get_or t (lit "summary") PyNone));
    try discriminate; cbn [negb andb];
    destruct (add_ticket t w) as [[e|id'] w1]; cbn [fst snd];
    (split; [try reflexivity; now destruct e
            | intros id [= <-]; reflexivity || discriminate]).
Qed.

End AddTicket.

(** C10.  A ticket whose [key] is present but empty and whose [summary] is
    non-empty passes the tool's validation and is stored under the empty
    identifier: the record handed to the store, and the [ticket_id] reported
    on success, are the empty string.  The identifier is whatever the mapping
    holds under [key]; the synthesized "TICKET-" identifier is used only when
    the mapping has no [key] at all. *)
Theorem empty_key_is_kept_as_identifier
  {RT : Runtime} {S : Type} {VS : VectorStore S}
  (ticket_json : str) (t : dict) (w : World S) :
  json_loads ticket_json = inr (PyDict t) ->
  dict_get t (lit "key") = Some (PyStr []) ->
  truthy (get_or t (lit "summary") PyNone) = true ->
  let document := _create_searchable_document t in
  let metadata := metadata_in w t in
  w_calls (snd (add_jira_ticket ticket_json w))
  = w_calls w ++ [CallAdd (PyStr []) document metadata]
  /\ (forall s',
        vs_add (w_store w) (PyStr []) document metadata = inr s' ->
        field (fst (add_jira_ticket ticket_json w)) (lit "status")
        = Some (PyStr (lit "success"))
        /\ field (fst (add_jira_ticket ticket_json w)) (lit "ticket_id")
           = Some (PyStr [])
        /\ w_store (snd (add_jira_ticket ticket_json w)) = s')
  /\ (forall t' v, dict_get t' (lit "key") = Some v ->
        w_calls (snd (add_ticket t' w))
        = w_calls w
          ++ [CallAdd v (_create_searchable_document t') (metadata_in w t')])
  /\ (forall t', dict_get t' (lit "key") = None ->
        w_calls (snd (add_ticket t' w))
        = w_calls w
          ++ [CallAdd
                (PyStr (lit "TICKET-" ++ firstn 8 (w_uuid4 w (w_uuid_n w))))
                (_create_searchable_document t') (metadata_in w t')]).
Proof.
  intros Hj Hk Hs document metadata.
  assert (Hv : truthy (get_or t (lit "key") PyNone)
               || truthy (get_or t (lit "summary") PyNone) = true)
    by (rewrite Hs; apply orb_true_r).
  destruct (add_jira_ticket_valid ticket_json t w Hj Hv) as [Hw Hr].
  assert (Hid : identifier_in w t = PyStr [])
    by now apply identifier_in_present.
  split; [|split; [|split]].
  - rewrite Hw, add_ticket_calls. unfold add_call. now rewrite Hid.
  - intros s' Hadd.
    destruct (add_ticket_accepted t w s') as [Hfst Hst];
      [now rewrite Hid|].
    rewrite (Hr _ Hfst), Hw, Hid. repeat split; [reflexivity..|exact Hst].
  - intros t' v Hk'. rewrite add_ticket_calls. unfold add_call.
    now rewrite (identifier_in_present w t' v Hk').
  - intros t' Hk'. rewrite add_ticket_calls. unfold add_call.
    now rewrite (identifier_in_absent w t' Hk').
Qed.

Lemma empty_key_is_kept_as_identifier_witness :
  field (fst (add_jira_ticket ticket_empty_key_json (initial_world [])))
    (lit "ticket_id")
  = Some (PyStr []).
Proof.
  refine (proj1 (proj2 (proj1 (proj2
    (empty_key_is_kept_as_identifier (RT := table_runtime)
       (VS := list_store) ticket_empty_key_json ticket_empty_key
       (initial_world []) eq_refl eq_refl eq_refl)) _ eq_refl))).
Defined.

(** C1, at the input where the code departs from it.  The ticket T-1 with
    summary X is added and then found by a search for X with limit 5.  The
    result carries the identifier T-1, but its formatted summary, being the
    first line of the stored document without its "Ticket: " label, is the
    key T-1 again and not the summary X, which sits on the fifth line. *)
Theorem roundtrip_summary_is_the_key :
  field (fst (add_jira_ticket ticket_T1_json (initial_world [])))
    (lit "ticket_id")
  = Some (PyStr (lit "T-1"))
  /\ field (fst (search_jira_tickets (lit "X") 5 world_with_T1))
       (lit "tickets")
     = Some (PyList
               [ PyDict
                   [ (lit "ticket_id", PyStr (lit "T-1"));
                     (lit "relevance_score", PyFloat f_one);
                     (lit "summary", PyStr (lit "T-1"));
                     (lit "type", PyStr (lit "Bug"));
                     (lit "priority", PyStr (lit "Unknown"));
                     (lit "status", PyStr (lit "Unknown"));
                     (lit "assignee", PyStr (lit "Unassigned")) ] ])
  /\ first_line_summary (_create_searchable_document ticket_T1)
     = lit "T-1"
  /\ nth_error (lines (_create_searchable_document ticket_T1)) 4
     = Some (lit "Summary: X").
Proof.
  split; [vm_compute; reflexivity|].
  split; [vm_compute; reflexivity|].
  split; vm_compute; reflexivity.
Qed.

(** ** Relevance scores *)

Lemma div_rne_mono (a a' b : Z) :
  0 < b -> a <= a' -> div_rne a b <= div_rne a' b.
Proof.
  intros Hb Ha. unfold div_rne.
  pose proof (Z.div_mod a b ltac:(lia)) as Ea.
  pose proof (Z.div_mod a' b ltac:(lia)) as Ea'.
  pose proof (Z.mod_pos_bound a b Hb) as Ra.
  pose proof (Z.mod_pos_bound a' b Hb) as Ra'.
  generalize dependent (a / b). generalize dependent (a mod b).
  generalize dependent (a' / b). generalize dependent (a' mod b).
  intros r' Rr' q' Ea' r Rr q Ea.
  subst a a'.
  assert (Hq : q <= q').
  { destruct (Z.le_gt_cases q q') as [|Hgt]; [assumption|].
    assert (b * (q' + 1) <= b * q) by (apply Z.mul_le_mono_nonneg_l; lia).
    lia. }
  destruct (Z.eq_dec q q') as [->|Hne].
  - destruct (Z.compare_spec (2 * r) b); destruct (Z.compare_spec (2 * r') b);
      destruct (Z.even q'); lia.
  - destruct (Z.compare_spec (2 * r) b); destruct (Z.compare_spec (2 * r') b);
      destruct (Z.even q); destruct (Z.even q'); lia.
Qed.

Lemma div_rne_exact (c b : Z) : 0 < b -> div_rne (c * b) b = c.
Proof.
  intros Hb. unfold div_rne.
  rewrite Z.div_mul, Z.mod_mul by lia.
  destruct (Z.compare_spec (2 * 0) b); lia.
Qed.

Lemma div_rne_lower (a b c : Z) : 0 < b -> c * b <= a -> c <= div_rne a b.
Proof.
  intros Hb H. rewrite <- (div_rne_exact c b Hb). now apply div_rne_mono.
Qed.

Lemma div_rne_upper (a b c : Z) : 0 < b -> a <= c * b -> div_rne a b <= c.
Proof.
  intros Hb H. rewrite <- (div_rne_exact c b Hb). now apply div_rne_mono.
Qed.

Lemma binade_nonneg (a b : Z) : 0 <= binade a b.
Proof. unfold binade. lia. Qed.

Lemma binade_mono (a a' b : Z) :
  0 < b -> 0 <= a -> a <= a' -> binade a b <= binade a' b.
Proof.
  intros Hb Ha Hle. unfold binade.
  assert (a / b <= a' / b) by (apply Z.div_le_mono; lia).
  assert (Z.log2 (a / b) <= Z.log2 (a' / b)) by now apply Z.log2_le_mono.
  lia.
Qed.

(** Below its binade's upper end: [a / b < 2^(k + 53)]. *)
Lemma binade_upper (a b : Z) :
  0 < b -> 0 <= a -> a <= 2 ^ 53 * (b * 2 ^ binade a b).
Proof.
  intros Hb Ha.
  set (k := binade a b).
  assert (Hk : 0 <= k) by apply binade_nonneg.
  set (q := a / b).
  assert (Hq0 : 0 <= q) by (apply Z.div_pos; lia).
  assert (Hq : q < 2 ^ (k + 53)).
  { destruct (Z.eq_dec q 0) as [->|Hne].
    - apply Z.pow_pos_nonneg; lia.
    - destruct (Z.log2_spec q ltac:(lia)) as [_ Hlt].
      eapply Z.lt_le_trans; [exact Hlt|].
      apply Z.pow_le_mono_r; [lia|].
      unfold k, binade. fold q. lia. }
  rewrite Z.pow_add_r in Hq by lia.
  pose proof (Z.div_mod a b ltac:(lia)) as E. fold q in E.
  pose proof (Z.mod_pos_bound a b Hb) as R.
  assert (HP : 0 < 2 ^ k) by (apply Z.pow_pos_nonneg; lia).
  assert (b * (q + 1) <= b * (2 ^ k * 2 ^ 53))
    by (apply Z.mul_le_mono_nonneg_l; lia).
  lia.
Qed.

(** In a binade above the first, at or above its lower end. *)
Lemma binade_lower (a b : Z) :
  0 < b -> 0 < binade a b -> 2 ^ 52 * (b * 2 ^ binade a b) <= a.
Proof.
  intros Hb Hk.
  set (k := binade a b) in *.
  set (q := a / b).
  assert (Hl : Z.log2 q = k + 52)
    by (unfold k, binade in *; fold q in Hk |- *; lia).
  assert (Hq0 : 0 < q).
  { destruct (Z.lt_trichotomy q 0) as [H|[H|H]]; [|subst q|assumption].
    - rewrite Z.log2_nonpos in Hl by lia. lia.
    - rewrite H in Hl. cbn in Hl. lia. }
  destruct (Z.log2_spec q Hq0) as [Hle _].
  rewrite Hl, Z.pow_add_r in Hle by lia.
  pose proof (Z.div_mod a b ltac:(lia)) as E. fold q in E.
  pose proof (Z.mod_pos_bound a b Hb) as R.
  assert (b * (2 ^ k * 2 ^ 52) <= b * q)
    by (apply Z.mul_le_mono_nonneg_l; lia).
  lia.
Qed.

Lemma round_pos_nonneg (a b : Z) : 0 < b -> 0 <= a -> 0 <= round_pos a b.
Proof.
  intros Hb Ha. unfold round_pos. cbv zeta.
  pose proof (binade_nonneg a b).
  assert (HP : 0 < 2 ^ binade a b) by (apply Z.pow_pos_nonneg; lia).
  assert (0 <= div_rne a (b * 2 ^ binade a b))
    by (apply div_rne_lower; nia).
  nia.
Qed.

Lemma round_pos_mono (a a' b : Z) :
  0 < b -> 0 <= a -> a <= a' -> round_pos a b <= round_pos a' b.
Proof.
  intros Hb Ha Hle. unfold round_pos. cbv zeta.
  pose proof (binade_mono a a' b Hb Ha Hle) as Hk.
  pose proof (binade_nonneg a b) as Hk0.
  set (k := binade a b) in *. set (k' := binade a' b) in *.
  assert (HP : 0 < 2 ^ k) by (apply Z.pow_pos_nonneg; lia).
  assert (HP' : 0 < 2 ^ k') by (apply Z.pow_pos_nonneg; lia).
  destruct (Z.eq_dec k k') as [<-|Hne].
  - apply Z.mul_le_mono_nonneg_r; [lia|].
    apply div_rne_mono; [nia|assumption].
  - assert (Hup : div_rne a (b * 2 ^ k) <= 2 ^ 53).
    { apply div_rne_upper; [nia|]. apply binade_upper; assumption. }
    assert (Hlow : 2 ^ 52 <= div_rne a' (b * 2 ^ k')).
    { apply div_rne_lower; [nia|]. apply binade_lower; [assumption|].
      fold k'. lia. }
    assert (Hpw : 2 * 2 ^ k <= 2 ^ k').
    { replace (2 * 2 ^ k) with (2 ^ (k + 1))
        by (rewrite Z.pow_add_r by lia; lia).
      apply Z.pow_le_mono_r; lia. }
    assert (H0 : 0 <= div_rne a (b * 2 ^ k)) by (apply div_rne_lower; nia).
    transitivity (2 ^ 53 * 2 ^ k); [nia|].
    transitivity (2 ^ 52 * 2 ^ k'); [lia|nia].
Qed.

Lemma round_units_mono (a a' b : Z) :
  0 < b -> a <= a' -> round_units a b <= round_units a' b.
Proof.
  intros Hb Hle. unfold round_units.
  destruct (Z.ltb_spec a 0); destruct (Z.ltb_spec a' 0); try lia.
  - assert (round_pos (- a') b <= round_pos (- a) b)
      by (apply round_pos_mono; lia).
    lia.
  - pose proof (round_pos_nonneg (- a) b Hb ltac:(lia)).
    pose proof (round_pos_nonneg a' b Hb ltac:(lia)). lia.
  - apply round_pos_mono; lia.
Qed.

Lemma fround_mono (a a' b : Z) :
  0 < b -> a <= a' -> fle (fround a b) (fround a' b) = true.
Proof.
  intros Hb Hle. pose proof (round_units_mono a a' b Hb Hle) as H.
  unfold fround. cbv zeta.
  assert (HO : 0 < overflow_units)
    by (apply Z.pow_pos_nonneg; lia).
  generalize dependent (round_units a b).
  generalize dependent (round_units a' b). intros r' r H.
  generalize dependent overflow_units. intros ov HO.
  destruct (Z.leb_spec ov (Z.abs r)); destruct (Z.leb_spec ov (Z.abs r'));
    cbn [fle];
    repeat match goal with
           | |- context [?x <? 0] => destruct (Z.ltb_spec x 0)
           | |- context [?x <=? ?y] => destruct (Z.leb_spec x y)
           end; try reflexivity; lia.
Qed.

(** ** Floats *)

Lemma unit_pos : 0 < 2 ^ unit_exp.
Proof. apply Z.pow_pos_nonneg; [lia | unfold unit_exp; lia]. Qed.

Lemma max_below_overflow : max_units < overflow_units.
Proof. vm_compute. reflexivity. Qed.

Lemma max_units_nonneg : 0 <= max_units.
Proof. vm_compute. discriminate. Qed.

Lemma fround_finite (a b r : Z) :
  round_units a b = r -> Z.abs r < overflow_units -> fround a b = FFin r.
Proof.
  intros <- H. unfold fround. cbv zeta.
  destruct (Z.leb_spec overflow_units (Z.abs (round_units a b)));
    [lia | reflexivity].
Qed.

Lemma fround_cases (a b : Z) :
  (exists s, fround a b = FInf s) \/ (exists r, fround a b = FFin r).
Proof.
  unfold fround. cbv zeta.
  destruct (overflow_units <=? _); [left|right]; eauto.
Qed.

Lemma py_round_finite (n : Z) (nd : nat) (s : float64) :
  py_round (FFin n) nd = inr s -> exists r, s = FFin r.
Proof.
  unfold py_round. destruct (323 <? nd)%nat; [intros [= <-]; eauto|].
  cbv zeta.
  destruct (fround_cases (div_rne (10 ^ Z.of_nat nd * n) (2 ^ unit_exp)
                          * 2 ^ unit_exp) (10 ^ Z.of_nat nd))
    as [[s0 ->]|[r ->]]; [discriminate|intros [= <-]; eauto].
Qed.

Lemma py_round_mono (x x' : float64) (nd : nat) (s s' : float64) :
  fle x x' = true ->
  py_round x nd = inr s -> py_round x' nd = inr s' -> fle s s' = true.
Proof.
  intros Hle Hs Hs'.
  destruct x as [|[]|n], x' as [|[]|n']; try discriminate Hle;
    try (cbn in Hs, Hs'; congruence);
    try (apply py_round_finite in Hs'; destruct Hs' as [r ->];
         cbn in Hs; injection Hs as <-; reflexivity);
    try (apply py_round_finite in Hs; destruct Hs as [r ->];
         cbn in Hs'; injection Hs' as <-; reflexivity).
  - cbn [fle] in Hle. apply Z.leb_le in Hle.
    unfold py_round in Hs, Hs'.
    destruct (323 <? nd)%nat.
    + injection Hs as <-. injection Hs' as <-. cbn [fle]. now apply Z.leb_le.
    + cbv zeta in Hs, Hs'.
      set (p := 10 ^ Z.of_nat nd) in *.
      assert (Hp : 0 < p) by (apply Z.pow_pos_nonneg; lia).
      pose proof unit_pos as Hu.
      assert (Ht : div_rne (p * n) (2 ^ unit_exp)
                   <= div_rne (p * n') (2 ^ unit_exp))
        by (apply div_rne_mono; nia).
      pose proof (fround_mono
                    (div_rne (p * n) (2 ^ unit_exp) * 2 ^ unit_exp)
                    (div_rne (p * n') (2 ^ unit_exp) * 2 ^ unit_exp)
                    p Hp ltac:(nia)) as Hf.
      destruct (fround _ p); try discriminate Hs;
        destruct (fround _ p); try discriminate Hs';
        injection Hs as <-; injection Hs' as <-; exact Hf.
Qed.

Lemma fsub_one_antitone (d d' : float64) :
  fle d d' = true -> fle (fsub f_one d') (fsub f_one d) = true.
Proof.
  unfold f_one.
  destruct d as [|[]|n], d' as [|[]|n']; try discriminate;
    try reflexivity;
    try (intros _; cbn [fsub negb];
         match goal with
         | |- context [fround ?a ?b] =>
             destruct (fround_cases a b) as [[s ->]|[r ->]];
             [destruct s|]; reflexivity
         end).
  - cbn [fle fsub]. intros H. apply Z.leb_le in H.
    apply fround_mono; lia.
Qed.

(** The score falls as the distance grows. *)
Lemma score_antitone (d d' s s' : float64) :
  fle d d' = true ->
  score_of_distance d = inr s -> score_of_distance d' = inr s' ->
  fle s' s = true.
Proof.
  unfold score_of_distance. intros Hle Hs Hs'.
  eapply py_round_mono; [|exact Hs'|exact Hs].
  now apply fsub_one_antitone.
Qed.

(** Rounding at the ends of the two ranges of interest, by evaluation. *)
Lemma round_units_at_zero (b : Z) : 0 < b -> round_units 0 b = 0.
Proof. destruct b; [lia | reflexivity | lia]. Qed.

Lemma round_units_at_one : round_units (2 ^ unit_exp) 1 = 2 ^ unit_exp.
Proof. vm_compute. reflexivity. Qed.

Lemma round_units_at_thousand :
  round_units (1000 * 2 ^ unit_exp) 1000 = 2 ^ unit_exp.
Proof. vm_compute. reflexivity. Qed.

Lemma round_units_one_plus_max :
  round_units (2 ^ unit_exp + max_units) 1 = max_units.
Proof. vm_compute. reflexivity. Qed.

Lemma round_units_one_minus_max :
  round_units (2 ^ unit_exp - max_units) 1 = - max_units.
Proof. vm_compute. reflexivity. Qed.

Lemma round_units_thousandths_of_max :
  round_units (div_rne (1000 * max_units) (2 ^ unit_exp) * 2 ^ unit_exp) 1000
  = max_units.
Proof. vm_compute. reflexivity. Qed.

Lemma round_units_thousandths_of_min :
  round_units (div_rne (1000 * - max_units) (2 ^ unit_exp) * 2 ^ unit_exp)
    1000
  = - max_units.
Proof. vm_compute. reflexivity. Qed.

Lemma binary64_in_range (x : float64) : is_binary64 x -> in_range x.
Proof.
  destruct x as [| |n]; cbn; trivial.
  intros (m & e & -> & Hm & He).
  assert (HP : 0 < 2 ^ e) by (apply Z.pow_pos_nonneg; lia).
  assert (HE : 2 ^ e <= 2 ^ 2045) by (apply Z.pow_le_mono_r; lia).
  assert (HM : Z.abs m <= 2 ^ 53 - 1) by lia.
  unfold max_units.
  assert (Z.abs m * 2 ^ e <= (2 ^ 53 - 1) * 2 ^ 2045).
  { apply Z.mul_le_mono_nonneg; lia. }
  assert (Z.abs (m * 2 ^ e) = Z.abs m * 2 ^ e)
    by (rewrite Z.abs_mul, (Z.abs_eq (2 ^ e)); lia).
  lia.
Qed.

Lemma fsub_one_in_range (d : float64) :
  in_range d -> in_range (fsub f_one d).
Proof.
  unfold f_one. destruct d as [| |n]; cbn [fsub in_range]; trivial.
  intros Hn.
  pose proof (round_units_mono (2 ^ unit_exp - max_units) (2 ^ unit_exp - n)
                1 ltac:(lia) ltac:(lia)) as Hlo.
  pose proof (round_units_mono (2 ^ unit_exp - n) (2 ^ unit_exp + max_units)
                1 ltac:(lia) ltac:(lia)) as Hhi.
  rewrite round_units_one_minus_max in Hlo.
  rewrite round_units_one_plus_max in Hhi.
  pose proof max_below_overflow. pose proof max_units_nonneg.
  rewrite (fround_finite _ _ _ eq_refl) by lia.
  cbn [in_range]. lia.
Qed.

Lemma py_round3_in_range (x : float64) :
  in_range x -> exists s, py_round x 3 = inr s /\ in_range s.
Proof.
  destruct x as [|b|n]; [exists FNaN; now split | exists (FInf b); now split |].
  cbn [in_range]. intros Hn. unfold py_round.
  change (323 <? 3)%nat with false. cbv zeta.
  change (10 ^ Z.of_nat 3) with 1000.
  pose proof unit_pos as Hu.
  pose proof (div_rne_mono (1000 * - max_units) (1000 * n) (2 ^ unit_exp)
                Hu ltac:(lia)) as Tlo.
  pose proof (div_rne_mono (1000 * n) (1000 * max_units) (2 ^ unit_exp)
                Hu ltac:(lia)) as Thi.
  set (t := div_rne (1000 * n) (2 ^ unit_exp)) in *.
  pose proof (round_units_mono _ (t * 2 ^ unit_exp) 1000 ltac:(lia)
                (Z.mul_le_mono_nonneg_r _ _ _ (Z.lt_le_incl _ _ Hu) Tlo))
    as Hlo.
  pose proof (round_units_mono (t * 2 ^ unit_exp) _ 1000 ltac:(lia)
                (Z.mul_le_mono_nonneg_r _ _ _ (Z.lt_le_incl _ _ Hu) Thi))
    as Hhi.
  rewrite round_units_thousandths_of_min in Hlo.
  rewrite round_units_thousandths_of_max in Hhi.
  pose proof max_below_overflow. pose proof max_units_nonneg.
  rewrite (fround_finite _ _ _ eq_refl) by lia.
  eexists. split; [reflexivity|]. cbn [in_range]. lia.
Qed.

(** A distance that is a float gives a score: rounding never overflows. *)
Lemma score_defined (d : float64) :
  in_range d ->
  exists s, score_of_distance d = inr s /\ in_range s.
Proof.
  intros H. apply py_round3_in_range. now apply fsub_one_in_range.
Qed.

(** A distance in [0, 1] gives a score in [0, 1]. *)
Lemma score_in_unit_interval (d : float64) :
  fle f_zero d = true -> fle d f_one = true ->
  exists s, score_of_distance d = inr s
            /\ fle f_zero s = true /\ fle s f_one = true.
Proof.
  unfold score_of_distance, f_zero, f_one.
  destruct d as [|[]|n]; try discriminate.
  cbn [fle fsub]. intros H0 H1.
  apply Z.leb_le in H0. apply Z.leb_le in H1.
  pose proof unit_pos as Hu.
  pose proof max_below_overflow as Hov.
  assert (Hone : 2 ^ unit_exp < overflow_units).
  { unfold overflow_units, unit_exp. apply Z.pow_lt_mono_r; lia. }
  (* the difference *)
  pose proof (round_units_mono 0 (2 ^ unit_exp - n) 1 ltac:(lia) ltac:(lia))
    as Hlo.
  pose proof (round_units_mono (2 ^ unit_exp - n) (2 ^ unit_exp) 1
                ltac:(lia) ltac:(lia)) as Hhi.
  rewrite round_units_at_zero in Hlo by lia.
  rewrite round_units_at_one in Hhi.
  rewrite (fround_finite _ _ _ eq_refl) by lia.
  set (r := round_units (2 ^ unit_exp - n) 1) in *.
  (* the rounding to three decimals *)
  unfold py_round. change (323 <? 3)%nat with false. cbv zeta.
  change (10 ^ Z.of_nat 3) with 1000.
  assert (T0 : 0 <= div_rne (1000 * r) (2 ^ unit_exp))
    by (apply div_rne_lower; lia).
  assert (T1 : div_rne (1000 * r) (2 ^ unit_exp) <= 1000)
    by (apply div_rne_upper; lia).
  set (t := div_rne (1000 * r) (2 ^ unit_exp)) in *.
  pose proof (round_units_mono 0 (t * 2 ^ unit_exp) 1000 ltac:(lia)
                ltac:(nia)) as Rlo.
  pose proof (round_units_mono (t * 2 ^ unit_exp) (1000 * 2 ^ unit_exp) 1000
                ltac:(lia) ltac:(nia)) as Rhi.
  rewrite round_units_at_zero in Rlo by lia.
  rewrite round_units_at_thousand in Rhi.
  rewrite (fround_finite _ _ _ eq_refl) by lia.
  eexists. split; [reflexivity|]. cbn [fle].
  split; apply Z.leb_le; lia.
Qed.

(** ** Formatting the query result *)

Lemma skipn_head {A} (l : list A) (i n : nat) :
  List.length (skipn i l) = S n ->
  exists a, nth_error l i = Some a /\ skipn i l = a :: skipn (S i) l.
Proof.
  revert l. induction i as [|i IH]; intros [|x l] H; try discriminate.
  - exists x. now split.
  - apply IH in H. destruct H as (a & Hn & Hs). exists a. now split.
Qed.

Lemma format_from_spec (r : QueryResult) (rest : list str) (i : nat) :
  List.length (skipn i (documents r)) = List.length rest ->
  List.length (skipn i (metadatas r)) = List.length rest ->
  List.length (skipn i (distances r)) = List.length rest ->
  Forall in_range (distances r) ->
  exists l,
    format_from r i rest = inr l
    /\ List.map ticket_id l = rest
    /\ Forall2 scored l (skipn i (distances r)).
Proof.
  revert i. induction rest as [|x rest IH]; intros i Hd Hm Hs Hr.
  - exists []. cbn [format_from List.map]. repeat split.
    destruct (skipn i (distances r)); [constructor|discriminate].
  - cbn [List.length] in Hd, Hm, Hs.
    destruct (skipn_head _ _ _ Hd) as (c & Hc & Ed).
    destruct (skipn_head _ _ _ Hm) as (m & Hmm & Em).
    destruct (skipn_head _ _ _ Hs) as (d & Hdd & Es).
    rewrite Ed in Hd. rewrite Em in Hm. rewrite Es in Hs.
    injection Hd as Hd. injection Hm as Hm. injection Hs as Hs.
    destruct (IH (S i) Hd Hm Hs Hr) as (l & El & Eid & Esc).
    assert (Hin : in_range d).
    { eapply Forall_forall; [exact Hr|]. eapply nth_error_In; exact Hdd. }
    destruct (score_defined d Hin) as (s & Escore & _).
    exists ({| ticket_id := x; content := c; metadata := m;
               relevance_score := s |} :: l).
    cbn [format_from]. unfold subscript.
    rewrite Hc, Hmm, Hdd, Escore, El.
    repeat split.
    + cbn. now rewrite Eid.
    + rewrite Es. constructor; [exact Escore|exact Esc].
Qed.

Lemma Forall2_nth_error_l {A B} (R : A -> B -> Prop) (l : list A)
  (l' : list B) (i : nat) (a : A) :
  Forall2 R l l' -> nth_error l i = Some a ->
  exists b, nth_error l' i = Some b /\ R a b.
Proof.
  intros H. revert i. induction H as [|x y l l' Hxy _ IH]; intros i Hi.
  - destruct i; discriminate.
  - destruct i as [|i]; cbn in *.
    + injection Hi as <-. eauto.
    + now apply IH.
Qed.

Lemma scores_follow_distances (l : list SearchResult) (ds : list float64) :
  Forall2 scored l ds -> nondecreasing ds ->
  nonincreasing (List.map relevance_score l).
Proof.
  intros HF Hds i a b Ha Hb.
  rewrite nth_error_map in Ha, Hb.
  destruct (nth_error l i) as [ra|] eqn:Ea; [|discriminate].
  destruct (nth_error l (S i)) as [rb|] eqn:Eb; [|discriminate].
  cbn in Ha, Hb. injection Ha as <-. injection Hb as <-.
  destruct (Forall2_nth_error_l _ _ _ _ _ HF Ea) as (da & Hda & Sa).
  destruct (Forall2_nth_error_l _ _ _ _ _ HF Eb) as (db & Hdb & Sb).
  eapply score_antitone; [exact (Hds i da db Hda Hdb)|exact Sa|exact Sb].
Qed.

(** C7.  When the vector store answers with parallel arrays of floats, the
    search operation returns one result per row, each with the relevance
    score [round(1 - distance, 3)].  A distance in [0, 1] gives a score in
    [0, 1], and distances in non-decreasing order give scores in
    non-increasing order. *)
Theorem relevance_scores_follow_distances {S : Type} {VS : VectorStore S}
  (query : str) (n : Z) (filters : option dict) (w : World S)
  (r : QueryResult) :
  vs_query (w_store w) query (Z.min n 20) (or_empty filters) = inr r ->
  parallel r ->
  Forall is_binary64 (distances r) ->
  exists l,
    fst (search_tickets query n filters w) = inr l
    /\ List.map ticket_id l = ids r
    /\ Forall2 scored l (distances r)
    /\ Forall2 (fun res d =>
                  fle f_zero d = true -> fle d f_one = true ->
                  fle f_zero (relevance_score res) = true
                  /\ fle (relevance_score res) f_one = true)
         l (distances r)
    /\ (nondecreasing (distances r) ->
        nonincreasing (List.map relevance_score l)).
Proof.
  intros Hq (Hd & Hm & Hs) Hb.
  assert (Hr : Forall in_range (distances r)).
  { eapply Forall_impl; [|exact Hb]. apply binary64_in_range. }
  destruct (format_from_spec r (ids r) 0) as (l & El & Eid & Esc);
    try assumption.
  cbn [skipn] in Esc.
  exists l. rewrite search_tickets_unfold. cbv zeta. rewrite Hq.
  unfold formatted_results. rewrite El.
  split; [reflexivity|]. split; [exact Eid|]. split; [exact Esc|]. split.
  - eapply Forall2_impl; [|exact Esc].
    intros res d Hsc H0 H1.
    destruct (score_in_unit_interval d H0 H1) as (s & Es & Hlo & Hhi).
    unfold scored in Hsc. rewrite Es in Hsc. injection Hsc as ->.
    now split.
  - now apply scores_follow_distances.
Qed.

Lemma canned_distances_are_floats :
  Forall is_binary64 (distances canned_result).
Proof.
  repeat constructor; cbv [is_binary64 is_binary64_units];
    [exists 0, 0 | exists 1, 1072 | exists 1, 1073];
    (split; [reflexivity | split; [reflexivity | split; discriminate]]).
Qed.

Lemma canned_distances_sorted : nondecreasing (distances canned_result).
Proof.
  intros [|[|[|i]]] a b Ha Hb; vm_compute in Ha, Hb;
    try discriminate; try (destruct i; discriminate);
    injection Ha as <-; injection Hb as <-; vm_compute; reflexivity.
Qed.

Lemma relevance_scores_follow_distances_witness :
  exists l,
    fst (search_tickets (VS := canned_store) (lit "X") 5 None
           (initial_world tt)) = inr l
    /\ nonincreasing (List.map relevance_score l).
Proof.
  destruct (relevance_scores_follow_distances (VS := canned_store)
              (lit "X") 5 None (initial_world tt) canned_result eq_refl
              (conj eq_refl (conj eq_refl eq_refl))
              canned_distances_are_floats)
    as (l & El & _ & _ & _ & Hmono).
  exists l. split; [exact El | exact (Hmono canned_distances_sorted)].
Defined.

(** ** The float model against its references *)

(** On the samples the subtraction of the model is the subtraction of the
    standard library's IEEE 754 specification, at precision 53 and maximal
    exponent 1024. *)
Lemma fsub_agrees_with_reference :
  Forall (fun d => valid_binary 53 1024 d = true
                   /\ of_spec_float (SFsub 53 1024 sf_one d)
                      = fsub f_one (of_spec_float d))
    reference_samples.
Proof.
  repeat (apply Forall_cons; [split; vm_compute; reflexivity|]).
  apply Forall_nil.
Qed.

(** On the samples [py_round] gives what the interpreter's [round] gives,
    ties and values just off a tie included. *)
Lemma py_round_agrees_with_interpreter :
  Forall (fun p => py_round (of_units (fst p)) 3 = inr (of_units (snd p)))
    round_samples.
Proof.
  repeat (apply Forall_cons; [vm_compute; reflexivity|]).
  apply Forall_nil.
Qed.

(* ================================================================= *)
(** * Part III. Further properties of the code                        *)
(* ================================================================= *)
(** ** The add tool: rejected inputs and store failures *)

(** X1.  A text that is not JSON is answered with the tagged error
    "Invalid JSON format provided"; nothing is logged and no call reaches the
    store. *)
Theorem add_rejects_invalid_json
  {RT : Runtime} {S : Type} {VS : VectorStore S}
  (ticket_json msg : str) (w : World S) :
  json_loads ticket_json = inl (JSONDecodeError msg) ->
  add_jira_ticket ticket_json w
  = (inr (tagged_error (lit "Invalid JSON format provided")), w).
Proof.
  intros H. unfold add_jira_ticket, try_except, bind, lift.
  now rewrite H.
Qed.

Lemma add_rejects_invalid_json_witness :
  add_jira_ticket (RT := table_runtime) (VS := list_store) (lit "oops")
    (initial_world [])
  = (inr (tagged_error (lit "Invalid JSON format provided")),
     initial_world []).
Proof.
  exact (add_rejects_invalid_json (RT := table_runtime) (VS := list_store)
           (lit "oops") (lit "Expecting value") (initial_world []) eq_refl).
Defined.

(** X2.  A JSON object in which both [key] and [summary] are absent or
    falsy (empty string, null, zero, ...) is answered with the validation
    error, and the world is left as it was: no identifier is drawn and no
    call reaches the store. *)
Theorem add_requires_key_or_summary
  {RT : Runtime} {S : Type} {VS : VectorStore S}
  (ticket_json : str) (t : dict) (w : World S) :
  json_loads ticket_json = inr (PyDict t) ->
  truthy (get_or t (lit "key") PyNone) = false ->
  truthy (get_or t (lit "summary") PyNone) = false ->
  add_jira_ticket ticket_json w
  = (inr (tagged_error
            (lit "Ticket must have either 'key' or 'summary' field")), w).
Proof.
  intros Hj Hk Hs. unfold add_jira_ticket, try_except, bind, lift.
  rewrite Hj. cbn [as_dict]. now rewrite Hk, Hs.
Qed.

Lemma add_requires_key_or_summary_witness :
  add_jira_ticket (RT := wide_runtime) (VS := list_store) (lit "{}")
    (initial_world [])
  = (inr (tagged_error
            (lit "Ticket must have either 'key' or 'summary' field")),
     initial_world []).
Proof.
  exact (add_requires_key_or_summary (RT := wide_runtime) (VS := list_store)
           (lit "{}") [] (initial_world []) eq_refl eq_refl eq_refl).
Defined.

(** X3.  Valid JSON that is not an object (a list, a number, a string,
    null) fails on the first field access; the tool answers with the tagged
    error carrying the attribute error's message and touches nothing. *)
Theorem add_rejects_non_object
  {RT : Runtime} {S : Type} {VS : VectorStore S}
  (ticket_json : str) (v : pyval) (w : World S) :
  json_loads ticket_json = inr v ->
  is_dict v = false ->
  add_jira_ticket ticket_json w
  = (inr (tagged_error
            (lit "Failed to add ticket: '" ++ type_name v
             ++ lit "' object has no attribute 'get'")), w).
Proof.
  intros Hj Hd. unfold add_jira_ticket, try_except, bind, lift.
  rewrite Hj. destruct v; try discriminate Hd; reflexivity.
Qed.

Lemma add_rejects_non_object_witness :
  add_jira_ticket (RT := wide_runtime) (VS := list_store) (lit "[1]")
    (initial_world [])
  = (inr (tagged_error
            (lit "Failed to add ticket: 'list' object has no attribute 'get'")),
     initial_world []).
Proof.
  exact (add_rejects_non_object (RT := wide_runtime) (VS := list_store)
           (lit "[1]") (PyList [PyInt 1]) (initial_world []) eq_refl eq_refl).
Defined.

(** X4.  When the store refuses the record, [add_ticket] logs the failure
    with the identifier and the store's message and raises it again; the add
    tool turns it into the tagged error "Failed to add ticket: ..." and the
    collection is left as it was. *)
Theorem add_store_failure_is_reported
  {RT : Runtime} {S : Type} {VS : VectorStore S}
  (ticket_json : str) (t : dict) (w : World S) (msg : str) :
  json_loads ticket_json = inr (PyDict t) ->
  truthy (get_or t (lit "key") PyNone)
  || truthy (get_or t (lit "summary") PyNone) = true ->
  vs_add (w_store w) (identifier_in w t) (_create_searchable_document t)
    (metadata_in w t) = inl (StoreError msg) ->
  fst (add_ticket t w) = inl (StoreError msg)
  /\ fst (add_jira_ticket ticket_json w)
     = inr (tagged_error (lit "Failed to add ticket: " ++ msg))
  /\ w_store (snd (add_jira_ticket ticket_json w)) = w_store w
  /\ w_log (snd (add_jira_ticket ticket_json w))
     = w_log w
       ++ [(ERROR, lit "Failed to add ticket " ++ py_str (identifier_in w t)
                   ++ lit ": " ++ msg)].
Proof.
  intros Hj Hv Hadd.
  destruct (add_jira_ticket_valid ticket_json t w Hj Hv) as [Hw _].
  assert (Ht : add_ticket t w
               = (inl (StoreError msg),
                  logged ERROR
                    (lit "Failed to add ticket " ++ py_str (identifier_in w t)
                     ++ lit ": " ++ msg)
                    (record_call (add_call w t) (w_store w)
                       (snd (now_isoformat (snd (uuid4_str w))))))).
  { unfold add_ticket, bind, try_except, collection_add, uuid4_str,
      now_isoformat, add_call, identifier_in, metadata_in in *.
    cbn [w_store w_uuid4 w_uuid_n w_now w_now_n fst snd] in *.
    now rewrite Hadd. }
  split; [now rewrite Ht|]. rewrite Hw, Ht. split; [|split; reflexivity].
  unfold add_jira_ticket, try_except, bind, lift.
  rewrite Hj. cbn [as_dict].
  destruct (truthy (get_or t (lit "key") PyNone));
    destruct (truthy (get_or t (lit "summary") PyNone));
    try discriminate Hv; cbn [negb andb]; now rewrite Ht.
Qed.

Lemma add_store_failure_is_reported_witness :
  fst (add_jira_ticket (RT := table_runtime) (VS := failing_store)
         ticket_T1_json (initial_world tt))
  = inr (tagged_error (lit "Failed to add ticket: unavailable")).
Proof.
  exact (proj1 (proj2
    (add_store_failure_is_reported (RT := table_runtime)
       (VS := failing_store) ticket_T1_json ticket_T1 (initial_world tt)
       (lit "unavailable") eq_refl eq_refl eq_refl))).
Defined.

(** ** Every tool answers with a tagged result *)

Lemma tagged_error_is_tagged (msg : str) : tagged (inr (tagged_error msg)).
Proof. right. reflexivity. Qed.

(** X5.  Whatever the input, the store and the interpreter do, the add,
    search and filter tools return normally, with a dictionary whose
    [status] is "success" or "error": no exception crosses the tool
    boundary. *)
Theorem tools_return_tagged_results
  {RT : Runtime} {S : Type} {VS : VectorStore S} (w : World S) :
  (forall ticket_json, tagged (fst (add_jira_ticket ticket_json w)))
  /\ (forall query limit, tagged (fst (search_jira_tickets query limit w)))
  /\ (forall issue_type priority status assignee,
        tagged (fst (filter_jira_tickets issue_type priority status
                       assignee w))).
Proof.
  split; [|split].
  - intros s. unfold add_jira_ticket, try_except, bind, lift.
    destruct (json_loads s) as [e|v].
    + destruct e; apply tagged_error_is_tagged.
    + destruct v; try apply tagged_error_is_tagged.
      cbn [as_dict].
      destruct (negb _ && negb _); [apply tagged_error_is_tagged|].
      destruct (add_ticket entries w) as [[e|id] w1].
      * destruct e; apply tagged_error_is_tagged.
      * left. reflexivity.
  - intros q n. unfold search_jira_tickets, try_except, bind.
    destruct (search_tickets q (Z.min (Z.max 1 n) 20) None w)
      as [[e|l] w1]; [apply tagged_error_is_tagged|].
    destruct l; left; reflexivity.
  - intros it p st a. unfold filter_jira_tickets, try_except, bind.
    destruct (build_filters it p st a) as [|kv f];
      [apply tagged_error_is_tagged|].
    match goal with
    | |- context [search_tickets ?q ?n ?fs w] =>
        destruct (search_tickets q n fs w) as [[e|l] w1]
    end; [apply tagged_error_is_tagged|].
    destruct l; left; reflexivity.
Qed.

(** ** Search and filter when the store fails *)

(** X7.  A failing query is not reported as an error by the search tool:
    the Knowledge Store logs it and returns nothing, and the tool answers
    with status "success", zero tickets found and the "No tickets found"
    message, exactly as for a query without matches. *)
Theorem search_tool_masks_store_failure
  {RT : Runtime} {S : Type} {VS : VectorStore S}
  (query : str) (limit : Z) (w : World S) (e : exn) :
  vs_query (w_store w) query (Z.min (Z.max 1 limit) 20) [] = inl e ->
  search_jira_tickets query limit w
  = (inr nothing_found,
     logged ERROR (lit "Search failed: " ++ exn_str e)
       (queried query (Z.min (Z.max 1 limit) 20) [] w)).
Proof.
  intros H. unfold search_jira_tickets, try_except, bind.
  rewrite search_tickets_unfold. cbv zeta.
  replace (Z.min (Z.min (Z.max 1 limit) 20) 20)
    with (Z.min (Z.max 1 limit) 20) by lia.
  cbn [or_empty]. now rewrite H.
Qed.

Lemma search_tool_masks_store_failure_witness :
  fst (search_jira_tickets (RT := table_runtime) (VS := failing_store)
         (lit "X") 5 (initial_world tt))
  = inr nothing_found.
Proof.
  pose proof (search_tool_masks_store_failure (RT := table_runtime)
                (VS := failing_store) (lit "X") 5 (initial_world tt)
                (StoreError (lit "unavailable")) eq_refl) as H.
  now rewrite H.
Defined.

(** X8.  The filter tool masks a failing query in the same way: status
    "success", zero found, and the message that no ticket matches the
    filters. *)
Theorem filter_tool_masks_store_failure
  {RT : Runtime} {S : Type} {VS : VectorStore S}
  (issue_type priority status assignee : str) (w : World S) (e : exn) :
  let filters := build_filters issue_type priority status assignee in
  filters <> [] ->
  vs_query (w_store w) [] 20 filters = inl e ->
  filter_jira_tickets issue_type priority status assignee w
  = (inr (nothing_matches filters),
     logged ERROR (lit "Search failed: " ++ exn_str e)
       (queried [] 20 filters w)).
Proof.
  intros filters Hne H. subst filters.
  unfold filter_jira_tickets, try_except, bind.
  destruct (build_filters issue_type priority status assignee)
    as [|kv f] eqn:Ef; [congruence|].
  rewrite search_tickets_unfold. cbv zeta.
  change (Z.min 20 20) with 20. cbn [or_empty]. now rewrite H.
Qed.

Lemma filter_tool_masks_store_failure_witness :
  fst (filter_jira_tickets (RT := table_runtime) (VS := failing_store)
         (lit "Bug") [] [] [] (initial_world tt))
  = inr (nothing_matches [(lit "issue_type", PyStr (lit "Bug"))]).
Proof.
  pose proof (filter_tool_masks_store_failure (RT := table_runtime)
                (VS := failing_store) (lit "Bug") [] [] []
                (initial_world tt) (StoreError (lit "unavailable"))
                ltac:(discriminate) eq_refl) as H.
  now rewrite H.
Defined.

(** ** Search on well-formed and on ragged answers *)

Lemma format_from_rows (r : QueryResult) (rest : list str) (i : nat) :
  List.length (skipn i (documents r)) = List.length rest ->
  List.length (skipn i (metadatas r)) = List.length rest ->
  List.length (skipn i (distances r)) = List.length rest ->
  Forall in_range (distances r) ->
  exists l,
    format_from r i rest = inr l
    /\ List.map ticket_id l = rest
    /\ List.map content l = skipn i (documents r)
    /\ List.map metadata l = skipn i (metadatas r).
Proof.
  revert i. induction rest as [|x rest IH]; intros i Hd Hm Hs Hr.
  - exists []. cbn [format_from List.map].
    destruct (skipn i (documents r)); [|discriminate].
    destruct (skipn i (metadatas r)); [|discriminate].
    repeat split.
  - cbn [List.length] in Hd, Hm, Hs.
    destruct (skipn_head _ _ _ Hd) as (c & Hc & Ed).
    destruct (skipn_head _ _ _ Hm) as (m & Hmm & Em).
    destruct (skipn_head _ _ _ Hs) as (d & Hdd & Es).
    rewrite Ed in Hd. rewrite Em in Hm. rewrite Es in Hs.
    injection Hd as Hd. injection Hm as Hm. injection Hs as Hs.
    destruct (IH (S i) Hd Hm Hs Hr) as (l & El & Eid & Ec & Emd).
    assert (Hin : in_range d).
    { eapply Forall_forall; [exact Hr|]. eapply nth_error_In; exact Hdd. }
    destruct (score_defined d Hin) as (s & Escore & _).
    exists ({| ticket_id := x; content := c; metadata := m;
               relevance_score := s |} :: l).
    cbn [format_from]. unfold subscript.
    rewrite Hc, Hmm, Hdd, Escore, El, Ed, Em.
    cbn [List.map ticket_id content metadata].
    now rewrite Eid, Ec, Emd.
Qed.

(** X10.  On an answer whose arrays line up, the search operation returns
    one result per row, in the store's order, each carrying the identifier,
    the document and the metadata of its own row; only the query is recorded
    and nothing is logged. *)
Theorem search_results_follow_rows {S : Type} {VS : VectorStore S}
  (query : str) (n : Z) (filters : option dict) (w : World S)
  (r : QueryResult) :
  vs_query (w_store w) query (Z.min n 20) (or_empty filters) = inr r ->
  parallel r ->
  Forall is_binary64 (distances r) ->
  exists l,
    search_tickets query n filters w
    = (inr l, queried query (Z.min n 20) (or_empty filters) w)
    /\ List.map ticket_id l = ids r
    /\ List.map content l = documents r
    /\ List.map metadata l = metadatas r.
Proof.
  intros Hq (Hd & Hm & Hs) Hb.
  assert (Hr : Forall in_range (distances r)).
  { eapply Forall_impl; [|exact Hb]. apply binary64_in_range. }
  destruct (format_from_rows r (ids r) 0) as (l & El & Eid & Ec & Emd);
    try assumption.
  exists l. rewrite search_tickets_unfold. cbv zeta. rewrite Hq.
  unfold formatted_results. rewrite El. repeat split; assumption.
Qed.

Lemma search_results_follow_rows_witness :
  exists l,
    fst (search_tickets (VS := canned_store) (lit "X") 5 None
           (initial_world tt)) = inr l
    /\ List.map ticket_id l = [lit "T-1"; lit "T-2"; lit "T-3"].
Proof.
  destruct (search_results_follow_rows (VS := canned_store)
              (lit "X") 5 None (initial_world tt) canned_result eq_refl
              (conj eq_refl (conj eq_refl eq_refl))
              canned_distances_are_floats)
    as (l & El & Eid & _).
  exists l. split; [now rewrite El | exact Eid].
Defined.

Lemma format_from_ragged (r : QueryResult) (rest : list str) (i : nat) :
  (i <= List.length (documents r))%nat ->
  (i <= List.length (metadatas r))%nat ->
  (i <= List.length (distances r))%nat ->
  (List.length (documents r) < i + List.length rest
   \/ List.length (metadatas r) < i + List.length rest
   \/ List.length (distances r) < i + List.length rest)%nat ->
  Forall in_range (distances r) ->
  format_from r i rest = inl index_error.
Proof.
  revert i. induction rest as [|x rest IH]; intros i Hd Hm Hs Hshort Hr.
  - cbn [List.length] in Hshort. lia.
  - cbn [format_from]. unfold subscript.
    destruct (nth_error (documents r) i) as [c|] eqn:Ec; [|reflexivity].
    destruct (nth_error (metadatas r) i) as [m|] eqn:Em; [|reflexivity].
    destruct (nth_error (distances r) i) as [d|] eqn:Ed; [|reflexivity].
    assert (Hin : in_range d).
    { eapply Forall_forall; [exact Hr|]. eapply nth_error_In; exact Ed. }
    destruct (score_defined d Hin) as (s & Escore & _). rewrite Escore.
    assert (Lc : (i < List.length (documents r))%nat)
      by (apply nth_error_Some; congruence).
    assert (Lm : (i < List.length (metadatas r))%nat)
      by (apply nth_error_Some; congruence).
    assert (Ld : (i < List.length (distances r))%nat)
      by (apply nth_error_Some; congruence).
    rewrite IH; [reflexivity|lia|lia|lia| |assumption].
    cbn [List.length] in Hshort. lia.
Qed.

(** X9.  An answer in which one of the arrays is shorter than the list of
    identifiers yields no result at all: the rows that could be formatted
    are discarded with the others, and the index error is logged. *)
Theorem search_discards_ragged_answer {S : Type} {VS : VectorStore S}
  (query : str) (n : Z) (filters : option dict) (w : World S)
  (r : QueryResult) :
  vs_query (w_store w) query (Z.min n 20) (or_empty filters) = inr r ->
  (List.length (documents r) < List.length (ids r)
   \/ List.length (metadatas r) < List.length (ids r)
   \/ List.length (distances r) < List.length (ids r))%nat ->
  Forall is_binary64 (distances r) ->
  search_tickets query n filters w
  = (inr [],
     logged ERROR (lit "Search failed: list index out of range")
       (queried query (Z.min n 20) (or_empty filters) w)).
Proof.
  intros Hq Hshort Hb.
  assert (Hr : Forall in_range (distances r)).
  { eapply Forall_impl; [|exact Hb]. apply binary64_in_range. }
  rewrite search_tickets_unfold. cbv zeta. rewrite Hq.
  unfold formatted_results.
  rewrite format_from_ragged; [reflexivity|lia|lia|lia|exact Hshort|exact Hr].
Qed.

Lemma ragged_distances_are_floats :
  Forall is_binary64 (distances ragged_result).
Proof.
  repeat constructor; cbv [is_binary64 is_binary64_units]; exists 0, 0;
    (split; [reflexivity | split; [reflexivity | split; discriminate]]).
Qed.

Lemma search_discards_ragged_answer_witness :
  fst (search_tickets (VS := ragged_store) (lit "X") 5 None
         (initial_world tt))
  = inr [].
Proof.
  pose proof (search_discards_ragged_answer (VS := ragged_store)
                (lit "X") 5 None (initial_world tt) ragged_result eq_refl
                (or_introl (le_n 2)) ragged_distances_are_floats) as H.
  now rewrite H.
Defined.

(** ** The shape of every document *)

(** Trimming leaves the first five lines as they are. *)
Lemma document_trimmed {RT : Runtime} (t : dict) :
  _create_searchable_document t
  = (lit "Ticket: " ++ shown_key t) ++ newline
    :: (lit "Type: " ++ shown_type t) ++ newline
    :: (lit "Priority: " ++ shown_priority t) ++ newline
    :: (lit "Status: " ++ shown_status t) ++ newline
    :: (lit "Summary: " ++ shown_summary t) ++ newline
    :: rstrip (lit "Description: " ++ shown_description t).
Proof.
  unfold _create_searchable_document, document_template. cbv zeta.
  fold (shown_key t) (shown_type t) (shown_priority t) (shown_status t)
       (shown_summary t) (shown_description t).
  set (k := shown_key t). set (ty := shown_type t).
  set (p := shown_priority t). set (s := shown_status t).
  set (sm := shown_summary t). set (d := shown_description t).
  replace (lit "Ticket: " ++ k ++ [newline] ++ lit "Type: " ++ ty
           ++ [newline] ++ lit "Priority: " ++ p ++ [newline]
           ++ lit "Status: " ++ s ++ [newline] ++ lit "Summary: " ++ sm
           ++ [newline] ++ lit "Description: " ++ d)
    with ((lit "Ticket: "
           ++ (k ++ newline :: (lit "Type: " ++ ty) ++ newline
               :: (lit "Priority: " ++ p) ++ newline
               :: (lit "Status: " ++ s) ++ newline
               :: (lit "Summary: " ++ sm) ++ [newline]))
          ++ lit "Description: " ++ d)
    by (repeat (rewrite <- ?app_assoc; cbn [app]); reflexivity).
  rewrite strip_keeps_head.
  repeat (rewrite <- ?app_assoc; cbn [app]). reflexivity.
Qed.

(** X11.  For every ticket the document is the six labelled values joined
    by line breaks, and trimming removes nothing but the whitespace at the
    end of the description: the label of the last line stays, and whitespace
    at the start of the key or around any other value is kept. *)
Theorem document_shape {RT : Runtime} (t : dict) :
  _create_searchable_document t
  = (lit "Ticket: " ++ shown_key t) ++ newline
    :: (lit "Type: " ++ shown_type t) ++ newline
    :: (lit "Priority: " ++ shown_priority t) ++ newline
    :: (lit "Status: " ++ shown_status t) ++ newline
    :: (lit "Summary: " ++ shown_summary t) ++ newline
    :: lit "Description:" ++ rstrip (32%N :: shown_description t).
Proof.
  rewrite document_trimmed.
  change (lit "Description: " ++ shown_description t)
    with (lit "Description" ++ 58%N :: 32%N :: shown_description t).
  rewrite rstrip_app_nonspace by reflexivity.
  repeat (rewrite <- ?app_assoc; cbn [app]). reflexivity.
Qed.

(** X12.  For every ticket whose rendered key has no line break, the
    summary that the search tool derives from the stored document is the key
    with every occurrence of "Ticket: " removed; it does not depend on the
    ticket's summary field. *)
Theorem derived_summary_is_the_key {RT : Runtime} (t : dict) :
  newline_free (shown_key t) ->
  first_line_summary (_create_searchable_document t)
  = replace (lit "Ticket: ") [] (shown_key t).
Proof.
  intros Hk. rewrite document_trimmed. unfold first_line_summary, split.
  rewrite split_from_line
    by (apply newline_free_label; [label_free | assumption]).
  cbn [List.hd rev app]. reflexivity.
Qed.

Lemma derived_summary_is_the_key_witness :
  first_line_summary (_create_searchable_document (RT := table_runtime)
                        ticket_T1)
  = lit "T-1".
Proof.
  rewrite (derived_summary_is_the_key (RT := table_runtime) ticket_T1).
  - reflexivity.
  - label_free.
Defined.

(** ** What the Metadata Extractor stores *)

Section MetadataEntries.
Context {RT : Runtime}.

Lemma metadata_lookup (now : str) (t : dict) (k : str) :
  dict_get (_extract_metadata now t) k
  = keep_truthy (dict_get (raw_metadata now t) k).
Proof. apply dict_get_filter_truthy, raw_metadata_nodup. Qed.

Lemma resolved_string (t : dict) (f sub alias s : str) :
  s <> [] -> dict_get t f = Some (PyStr s) ->
  keep_truthy (Some (resolved t f sub alias)) = Some (PyStr s).
Proof.
  intros Hs Hf. unfold resolved, safe_extract, py_or, get_or.
  rewrite Hf. destruct s; [contradiction|reflexivity].
Qed.

Lemma resolved_object (t : dict) (f sub alias : str) (o : dict) (v : pyval) :
  sub <> [] -> dict_get t f = Some (PyDict o) -> dict_get o sub = Some v ->
  truthy v = true ->
  keep_truthy (Some (resolved t f sub alias)) = Some v.
Proof.
  intros Hsub Hf Ho Hv. unfold resolved, safe_extract, py_or, get_or.
  rewrite Hf. destruct sub; [contradiction|].
  rewrite Ho, Hv. cbn. now rewrite Hv.
Qed.

Lemma resolved_other (t : dict) (f sub alias : str) (v : pyval) :
  dict_get t f = Some v -> is_str v = false -> is_dict v = false ->
  truthy v = true -> py_str v <> [] ->
  keep_truthy (Some (resolved t f sub alias)) = Some (PyStr (py_str v)).
Proof.
  intros Hf Hs Hd Hv Hne. unfold resolved, safe_extract, py_or, get_or.
  rewrite Hf, Hv.
  assert (Ht : truthy (PyStr (py_str v)) = true)
    by (cbn; destruct (py_str v); [contradiction|reflexivity]).
  destruct v; try discriminate; rewrite Ht; cbn [keep_truthy];
    now rewrite Ht.
Qed.

Lemma resolved_absent (t : dict) (f sub : str) :
  sub <> [] -> dict_get t f = None ->
  keep_truthy (Some (resolved t f sub f)) = None.
Proof.
  intros Hsub Hf. unfold resolved, safe_extract, py_or, get_or.
  rewrite Hf. destruct sub; [contradiction|]. reflexivity.
Qed.

End MetadataEntries.

(** X15.  How each of the six resolved fields reaches the metadata: a
    non-empty string is stored as it is; an object contributes the value
    under its sub-key ([name], [displayName] or [key]) when that value is
    truthy; any other truthy value is stored as its rendering, a string. *)
Theorem metadata_resolution {RT : Runtime} (now : str) (t : dict) :
  Forall
    (fun '(mk, pf, sub) =>
       (forall s, s <> [] -> dict_get t (lit pf) = Some (PyStr s) ->
          dict_get (_extract_metadata now t) (lit mk) = Some (PyStr s))
       /\ (forall o v, dict_get t (lit pf) = Some (PyDict o) ->
             dict_get o (lit sub) = Some v -> truthy v = true ->
             dict_get (_extract_metadata now t) (lit mk) = Some v)
       /\ (forall v, dict_get t (lit pf) = Some v ->
             is_str v = false -> is_dict v = false ->
             truthy v = true -> py_str v <> [] ->
             dict_get (_extract_metadata now t) (lit mk)
             = Some (PyStr (py_str v))))
    resolved_fields.
Proof.
  unfold resolved_fields.
  repeat (apply Forall_cons;
          [ split; [|split]; intros; rewrite metadata_lookup;
            match goal with
            | |- keep_truthy (dict_get _ (lit ?mk)) = _ =>
                match goal with
                | H : dict_get t (lit ?pf) = _ |- _ =>
                    change (dict_get (raw_metadata now t) (lit mk))
                      with (Some (resolved t (lit pf)
                                    (match pf with
                                     | "issuetype" | "priority" | "status" =>
                                         lit "name"
                                     | "project" => lit "key"
                                     | _ => lit "displayName"
                                     end%string)
                                    (lit mk)))
                end
            end;
            first [ now apply resolved_string
                  | eapply resolved_object; eauto; discriminate
                  | now apply resolved_other ]
          | ]).
  apply Forall_nil.
Qed.

Lemma metadata_resolution_witness :
  dict_get (_extract_metadata (RT := table_runtime) (lit "2024-01-15")
              ticket_api_shaped) (lit "priority")
  = Some (PyStr (lit "High")).
Proof.
  pose proof (Forall_inv (Forall_inv_tail
    (metadata_resolution (RT := table_runtime) (lit "2024-01-15")
       ticket_api_shaped))) as (_ & Hobj & _).
  apply (Hobj [ (lit "name", PyStr (lit "High")) ]); reflexivity.
Defined.

(** X14.  The metadata holds at most the nine keys of the literal, each at
    most once and in the literal's order. *)
Theorem metadata_keys_are_the_tracked_ones
  {RT : Runtime} (now : str) (t : dict) :
  NoDup (List.map fst (_extract_metadata now t))
  /\ incl (List.map fst (_extract_metadata now t)) metadata_keys
  /\ (List.length (_extract_metadata now t) <= 9)%nat
  /\ exists keep,
       List.map fst (_extract_metadata now t)
       = List.map fst (List.filter snd (List.combine metadata_keys keep))
       /\ List.length keep = 9%nat.
Proof.
  unfold _extract_metadata.
  set (raw := raw_metadata now t).
  assert (Hk : List.map fst raw = metadata_keys) by reflexivity.
  assert (Hsub : exists keep,
             List.map fst (List.filter (fun kv => truthy (snd kv)) raw)
             = List.map fst
                 (List.filter snd (List.combine (List.map fst raw) keep))
             /\ List.length keep = List.length raw).
  { clearbody raw. clear Hk.
    induction raw as [|[k v] raw (keep & E & L)].
    - exists []. now split.
    - exists (truthy v :: keep). cbn [List.map List.filter List.combine fst snd
                                        List.length].
      destruct (truthy v); cbn [List.map fst]; rewrite E, L; now split. }
  destruct Hsub as (keep & E & L). rewrite Hk in E.
  assert (Hincl : incl (List.map fst
                          (List.filter (fun kv => truthy (snd kv)) raw))
                    metadata_keys).
  { rewrite <- Hk. intros k Hin. apply in_map_iff in Hin.
    destruct Hin as (kv & <- & Hin). apply filter_In in Hin.
    apply in_map. tauto. }
  split; [|split; [exact Hincl|split]].
  - assert (Hnd : NoDup (List.map fst raw))
      by apply raw_metadata_nodup.
    clearbody raw. clear Hk E L Hincl keep.
    induction raw as [|[k v] raw IH]; [constructor|].
    cbn [List.filter snd]. inversion Hnd as [|? ? Hout Hnd']; subst.
    destruct (truthy v); [|now apply IH].
    cbn [List.map fst]. constructor; [|now apply IH].
    intros Hin. apply Hout. apply in_map_iff in Hin.
    destruct Hin as (kv & <- & Hin). apply filter_In in Hin.
    apply in_map. tauto.
  - transitivity (List.length raw); [apply filter_length_le|].
    reflexivity.
  - exists keep. split; [exact E|]. rewrite L. reflexivity.
Qed.

Lemma safe_extract_absent {RT : Runtime} (t : dict) (f sub : str) :
  sub <> [] -> dict_get t f = None ->
  safe_extract t f (Some sub) = empty_str.
Proof.
  intros Hsub Hf. unfold safe_extract, get_or. rewrite Hf.
  destruct sub; [contradiction|reflexivity].
Qed.

Lemma agree_on_one_field {RT : Runtime} (t : dict) (f : str) :
  plain_or_named (dict_get t f) ->
  keep_truthy (Some (resolved t f (lit "name") f))
  = nonempty_str (py_str (name_or_flat t f f)).
Proof.
  unfold plain_or_named, name_or_flat.
  destruct (dict_get t f) as [[| | | |s| |o]|] eqn:E; try contradiction.
  - intros _. unfold get_or. rewrite E. destruct s as [|c s].
    + unfold resolved, safe_extract, py_or, get_or. now rewrite E.
    + now apply resolved_string.
  - intros (s & Ho & Hne).
    rewrite (resolved_object t f (lit "name") f o (PyStr s));
      try assumption; try discriminate.
    + unfold get_or. rewrite Ho. now destruct s.
    + now destruct s.
  - intros _. rewrite resolved_absent by (assumption || discriminate).
    unfold get_or. now rewrite E.
Qed.

(** X13.  The document and the metadata agree on type, priority and
    status whenever each field is absent, a string, or an object with a
    non-empty string [name] (the type being read from [issuetype] as an
    object and from [issue_type] as a string): the metadata entry is the
    value shown in the document, and there is no entry when that value is
    empty. *)
Theorem document_and_metadata_agree {RT : Runtime} (now : str) (t : dict) :
  type_plain_or_named t ->
  plain_or_named (dict_get t (lit "priority")) ->
  plain_or_named (dict_get t (lit "status")) ->
  dict_get (_extract_metadata now t) (lit "issue_type")
  = nonempty_str (shown_type t)
  /\ dict_get (_extract_metadata now t) (lit "priority")
     = nonempty_str (shown_priority t)
  /\ dict_get (_extract_metadata now t) (lit "status")
     = nonempty_str (shown_status t).
Proof.
  intros Hty Hp Hs. rewrite !metadata_lookup.
  change (dict_get (raw_metadata now t) (lit "issue_type"))
    with (Some (resolved t (lit "issuetype") (lit "name")
                  (lit "issue_type"))).
  change (dict_get (raw_metadata now t) (lit "priority"))
    with (Some (resolved t (lit "priority") (lit "name") (lit "priority"))).
  change (dict_get (raw_metadata now t) (lit "status"))
    with (Some (resolved t (lit "status") (lit "name") (lit "status"))).
  split; [|split; now apply agree_on_one_field].
  unfold type_plain_or_named in Hty. unfold shown_type, name_or_flat.
  destruct (dict_get t (lit "issuetype")) as [[| | | | |?|o]|] eqn:E;
    try contradiction.
  - destruct Hty as (s & Ho & Hne).
    rewrite (resolved_object t _ _ _ o (PyStr s)); try assumption;
      try discriminate.
    + unfold get_or. rewrite Ho. now destruct s.
    + now destruct s.
  - unfold resolved, py_or.
    rewrite safe_extract_absent by (assumption || discriminate).
    cbn [truthy empty_str]. unfold get_or.
    destruct (dict_get t (lit "issue_type")) as [[| | | |s| |]|];
      try contradiction; [destruct s|]; reflexivity.
Qed.

Lemma document_and_metadata_agree_witness :
  dict_get (_extract_metadata (RT := table_runtime) (lit "2024-01-15")
              ticket_api_shaped) (lit "issue_type")
  = nonempty_str (shown_type (RT := table_runtime) ticket_api_shaped).
Proof.
  apply (document_and_metadata_agree (RT := table_runtime)
           (lit "2024-01-15") ticket_api_shaped).
  - exists (lit "Bug"). split; [reflexivity|discriminate].
  - exists (lit "High"). split; [reflexivity|discriminate].
  - exact I.
Defined.

(** X6.  A ticket without [key] is stored under the synthesized
    identifier "TICKET-" followed by the first eight characters of a fresh
    uuid, and under nothing else: its metadata has no [key] entry and the
    Ticket line of its document is empty, so the identifier is found in
    neither. *)
Theorem keyless_ticket_identifier
  {RT : Runtime} {S : Type} {VS : VectorStore S} (t : dict) (w : World S) :
  dict_get t (lit "key") = None ->
  exists id document metadata,
    w_calls (snd (add_ticket t w))
    = w_calls w ++ [CallAdd (PyStr id) document metadata]
    /\ id = lit "TICKET-" ++ firstn 8 (w_uuid4 w (w_uuid_n w))
    /\ dict_get metadata (lit "key") = None
    /\ starts (lit "Ticket: " ++ [newline]) document = true.
Proof.
  intros Hk.
  exists (lit "TICKET-" ++ firstn 8 (w_uuid4 w (w_uuid_n w))),
    (_create_searchable_document t), (metadata_in w t).
  split; [|split; [reflexivity|split]].
  - rewrite add_ticket_calls. unfold add_call.
    now rewrite (identifier_in_absent w t Hk).
  - unfold metadata_in. rewrite metadata_lookup.
    change (dict_get (raw_metadata (w_now w (w_now_n w)) t) (lit "key"))
      with (Some (get_or t (lit "key") empty_str)).
    unfold get_or. now rewrite Hk.
  - rewrite document_trimmed. unfold shown_key, get_or. rewrite Hk.
    reflexivity.
Qed.

Lemma keyless_ticket_identifier_witness :
  exists id document metadata,
    w_calls (snd (add_ticket (RT := table_runtime) (VS := list_store)
                    ticket_no_key (initial_world [])))
    = [CallAdd (PyStr id) document metadata]
    /\ id = lit "TICKET-123e4567".
Proof.
  destruct (keyless_ticket_identifier (RT := table_runtime)
              (VS := list_store) ticket_no_key (initial_world []) eq_refl)
    as (id & doc & meta & Hc & Hid & _).
  exists id, doc, meta. split; [exact Hc | exact Hid].
Defined.

(** ** Statistics *)

Lemma key_code_eqb_eq (a b : key_code) : key_code_eqb a b = true <-> a = b.
Proof.
  destruct a, b; cbn; split; try discriminate; try reflexivity.
  - intros H. apply str_eqb_eq in H. now subst.
  - intros [= ->]. apply str_eqb_refl.
  - intros H. apply Z.eqb_eq in H. now subst.
  - intros [= ->]. apply Z.eqb_refl.
  - intros H. apply Bool.eqb_prop in H. now subst.
  - intros [= ->]. apply Bool.eqb_reflx.
Qed.

(** Two keys are equal when they have the same code. *)
Lemma py_eq_code (a b : pyval) :
  py_eq a b = true
  <-> exists c, key_code_of a = Some c /\ key_code_of b = Some c.
Proof.
  unfold py_eq. destruct (key_code_of a) as [x|], (key_code_of b) as [y|];
    split; try discriminate; try (intros (c & H1 & H2); discriminate).
  - intros H. apply key_code_eqb_eq in H. subst. now exists y.
  - intros (c & [= ->] & [= ->]). now apply key_code_eqb_eq.
Qed.

Lemma py_eq_sym (a b : pyval) : py_eq a b = py_eq b a.
Proof.
  destruct (py_eq a b) eqn:E, (py_eq b a) eqn:E'; try reflexivity.
  - apply py_eq_code in E. destruct E as (c & H1 & H2).
    assert (py_eq b a = true) by (apply py_eq_code; eauto). congruence.
  - apply py_eq_code in E'. destruct E' as (c & H1 & H2).
    assert (py_eq a b = true) by (apply py_eq_code; eauto). congruence.
Qed.

Lemma py_eq_trans (a b c : pyval) :
  py_eq a b = true -> py_eq b c = true -> py_eq a c = true.
Proof.
  intros H1 H2. apply py_eq_code in H1, H2. apply py_eq_code.
  destruct H1 as (x & Ha & Hb), H2 as (y & Hb' & Hc).
  exists x. split; congruence.
Qed.

(** Equal keys are equal to the same keys. *)
Lemma py_eq_compat (k k' x : pyval) :
  py_eq k k' = true -> py_eq x k = py_eq x k'.
Proof.
  intros H. destruct (py_eq x k) eqn:E, (py_eq x k') eqn:E'; try reflexivity.
  - rewrite (py_eq_trans x k k' E H) in E'. discriminate.
  - rewrite py_eq_sym in H. rewrite (py_eq_trans x k' k E' H) in E.
    discriminate.
Qed.

Lemma hist_get_set (h : hist) (k k' : pyval) (c : Z) :
  hist_get (hist_set h k c) k'
  = if py_eq k k' then c else hist_get h k'.
Proof.
  induction h as [|[k0 c0] h IH]; [reflexivity|].
  cbn [hist_set]. destruct (py_eq k0 k) eqn:E0; cbn [hist_get].
  - destruct (py_eq k k') eqn:E.
    + now rewrite (py_eq_trans k0 k k' E0 E).
    + destruct (py_eq k0 k') eqn:E1; [|reflexivity].
      rewrite py_eq_sym in E0. rewrite (py_eq_trans k k0 k' E0 E1) in E.
      discriminate.
  - rewrite IH. destruct (py_eq k0 k') eqn:E1; [|reflexivity].
    destruct (py_eq k k') eqn:E; [|reflexivity].
    rewrite py_eq_sym in E. rewrite (py_eq_trans k0 k' k E1 E) in E0.
    discriminate.
Qed.

Lemma hist_get_compat (h : hist) (k k' : pyval) :
  py_eq k k' = true -> hist_get h k = hist_get h k'.
Proof.
  intros H. induction h as [|[k0 c0] h IH]; [reflexivity|].
  cbn [hist_get]. now rewrite (py_eq_compat k k' k0 H), IH.
Qed.

Lemma count_key_get (h h' : hist) (k k' : pyval) :
  count_key h k = inr h' ->
  hist_get h' k' = hist_get h k' + indicator (py_eq k k').
Proof.
  unfold count_key. destruct (hashable k); [|discriminate].
  intros [= <-]. rewrite hist_get_set. unfold indicator.
  destruct (py_eq k k') eqn:E; [|lia].
  now rewrite (hist_get_compat h k k' E).
Qed.

Lemma hist_total_set (h : hist) (k : pyval) :
  hist_total (hist_set h k (hist_get h k + 1)) = hist_total h + 1.
Proof.
  induction h as [|[k0 c0] h IH]; [reflexivity|].
  cbn [hist_set hist_get]. destruct (py_eq k0 k).
  - unfold hist_total. cbn [fold_right snd]. lia.
  - unfold hist_total in *. cbn [fold_right snd]. lia.
Qed.

Lemma count_key_total (h h' : hist) (k : pyval) :
  count_key h k = inr h' -> hist_total h' = hist_total h + 1.
Proof.
  unfold count_key. destruct (hashable k); [|discriminate].
  intros [= <-]. apply hist_total_set.
Qed.

Lemma count_key_hashable (h : hist) (k : pyval) :
  hashable k = true -> exists h', count_key h k = inr h'.
Proof. unfold count_key. intros ->. eauto. Qed.

Lemma count_key_unhashable (h : hist) (k : pyval) :
  hashable k = false ->
  exists msg, count_key h k = inl (TypeError msg)
              /\ (msg = lit "unhashable type: 'list'"
                  \/ msg = lit "unhashable type: 'dict'").
Proof.
  destruct k; intros H; try discriminate H; unfold count_key;
    cbn [hashable type_name]; eexists; (split; [reflexivity|]);
    [left|right]; reflexivity.
Qed.

Lemma occurrences_cons (f : dict -> pyval) (k : pyval) (m : dict)
  (ms : list dict) :
  occurrences f k (m :: ms)
  = indicator (py_eq (f m) k) + occurrences f k ms.
Proof.
  unfold occurrences, len, indicator. cbn [List.filter].
  destruct (py_eq (f m) k); cbn [List.length]; lia.
Qed.

(** What the loop over the sample does to the three histograms. *)
Lemma count_records_spec (ms : list dict) (h h' : Histograms) :
  count_records h ms = inr h' ->
  (forall k,
     hist_get (issue_types h') k
     = hist_get (issue_types h) k + occurrences issue_type_of k ms)
  /\ (forall k,
        hist_get (priorities h') k
        = hist_get (priorities h) k + occurrences priority_of k ms)
  /\ (forall k,
        hist_get (statuses h') k
        = hist_get (statuses h) k + occurrences status_of k ms)
  /\ hist_total (issue_types h') = hist_total (issue_types h) + len ms
  /\ hist_total (priorities h') = hist_total (priorities h) + len ms
  /\ hist_total (statuses h') = hist_total (statuses h) + len ms.
Proof.
  revert h. induction ms as [|m ms IH]; intros h.
  - intros [= <-]. unfold occurrences, len. cbn.
    repeat split; intros; lia.
  - cbn [count_records]. unfold count_record, category_values.
    fold (issue_type_of m) (priority_of m) (status_of m).
    destruct (count_key (issue_types h) (issue_type_of m)) as [|it] eqn:Eit;
      [discriminate|].
    destruct (count_key (priorities h) (priority_of m)) as [|pr] eqn:Epr;
      [discriminate|].
    destruct (count_key (statuses h) (status_of m)) as [|st] eqn:Est;
      [discriminate|].
    intros Hrest. apply IH in Hrest. cbn [issue_types priorities statuses]
      in Hrest.
    destruct Hrest as (Hi & Hp & Hs & Ti & Tp & Ts).
    assert (Hlen : len (m :: ms) = len ms + 1)
      by (unfold len; cbn [List.length]; lia).
    repeat split; intros; rewrite ?occurrences_cons, ?Hi, ?Hp, ?Hs, ?Ti,
      ?Tp, ?Ts, ?Hlen.
    + rewrite (count_key_get _ _ _ k Eit). lia.
    + rewrite (count_key_get _ _ _ k Epr). lia.
    + rewrite (count_key_get _ _ _ k Est). lia.
    + rewrite (count_key_total _ _ _ Eit). lia.
    + rewrite (count_key_total _ _ _ Epr). lia.
    + rewrite (count_key_total _ _ _ Est). lia.
Qed.

Lemma count_records_hashable (ms : list dict) (h : Histograms) :
  Forall (fun m => categories_hashable m = true) ms ->
  exists h', count_records h ms = inr h'.
Proof.
  revert h. induction ms as [|m ms IH]; intros h Hh; [now exists h|].
  inversion Hh as [|? ? Hm Hrest]; subst.
  unfold categories_hashable in Hm.
  apply andb_prop in Hm. destruct Hm as [Hm Hst].
  apply andb_prop in Hm. destruct Hm as [Hit Hpr].
  cbn [count_records]. unfold count_record, category_values.
  fold (issue_type_of m) (priority_of m) (status_of m).
  destruct (count_key_hashable (issue_types h) _ Hit) as (it & ->).
  destruct (count_key_hashable (priorities h) _ Hpr) as (pr & ->).
  destruct (count_key_hashable (statuses h) _ Hst) as (st & ->).
  now apply IH.
Qed.

Lemma count_records_unhashable (ms : list dict) (h : Histograms) :
  Exists (fun m => categories_hashable m = false) ms ->
  exists msg,
    count_records h ms = inl (TypeError msg)
    /\ (msg = lit "unhashable type: 'list'"
        \/ msg = lit "unhashable type: 'dict'").
Proof.
  revert h. induction ms as [|m ms IH]; intros h Hex;
    [inversion Hex|].
  cbn [count_records]. unfold count_record, category_values.
  fold (issue_type_of m) (priority_of m) (status_of m).
  destruct (hashable (issue_type_of m)) eqn:Hit.
  2:{ destruct (count_key_unhashable (issue_types h) _ Hit)
        as (msg & -> & Hmsg). eauto. }
  destruct (count_key_hashable (issue_types h) _ Hit) as (it & ->).
  destruct (hashable (priority_of m)) eqn:Hpr.
  2:{ destruct (count_key_unhashable (priorities h) _ Hpr)
        as (msg & -> & Hmsg). eauto. }
  destruct (count_key_hashable (priorities h) _ Hpr) as (pr & ->).
  destruct (hashable (status_of m)) eqn:Hst.
  2:{ destruct (count_key_unhashable (statuses h) _ Hst)
        as (msg & -> & Hmsg). eauto. }
  destruct (count_key_hashable (statuses h) _ Hst) as (st & ->).
  apply IH. inversion Hex as [? ? Hm|? ? Hrest]; subst; [|assumption].
  unfold categories_hashable in Hm. rewrite Hit, Hpr, Hst in Hm.
  discriminate.
Qed.

Section StatisticsProperties.
Context {RT : Runtime} {S : Type} {CR : CollectionReader S}.

Lemma get_stats_raised (w : World S) (r : raised) :
  stats_of_collection (w_store w) = inl r ->
  get_stats w
  = (inr (Failed (raised_str r)),
     logged ERROR (lit "Failed to get stats: " ++ raised_str r) w)
  /\ fst (get_jira_statistics w) = inr (StatsError (raised_str r)).
Proof.
  intros H.
  assert (E : get_stats w
              = (inr (Failed (raised_str r)),
                 logged ERROR (lit "Failed to get stats: " ++ raised_str r)
                   w))
    by (unfold get_stats; now rewrite H).
  split; [exact E|].
  unfold get_jira_statistics, try_except, bind. now rewrite E.
Qed.

Lemma get_stats_counted (w : World S) (st : Stats) :
  stats_of_collection (w_store w) = inr st ->
  get_stats w = (inr st, w).
Proof. intros H. unfold get_stats. now rewrite H. Qed.

End StatisticsProperties.

(** X16.  A failing [count()] or [get()] does not make [get_stats]
    raise: the failure is logged and the statistics are the total 0 with the
    error message, which [get_jira_statistics] hands on as a tagged error
    with the same message. *)
Theorem stats_failure_is_reported
  {RT : Runtime} {S : Type} {CR : CollectionReader S}
  (w : World S) (e : exn) :
  vs_count (w_store w) = inl e
  \/ (exists count, vs_count (w_store w) = inr count
                    /\ vs_get (w_store w) (Z.min 50 count) = inl e) ->
  get_stats w
  = (inr (Failed (exn_str e)),
     logged ERROR (lit "Failed to get stats: " ++ exn_str e) w)
  /\ fst (get_jira_statistics w) = inr (StatsError (exn_str e)).
Proof.
  intros H. apply (get_stats_raised w (Raised e)).
  unfold stats_of_collection.
  destruct H as [->|(c & -> & ->)]; reflexivity.
Qed.

Lemma stats_failure_is_reported_witness :
  fst (get_jira_statistics (RT := table_runtime) (CR := failing_reader)
         (initial_world tt))
  = inr (StatsError (lit "unavailable")).
Proof.
  exact (proj2 (stats_failure_is_reported (RT := table_runtime)
                  (CR := failing_reader) (initial_world tt)
                  (StoreError (lit "unavailable")) (or_introl eq_refl))).
Defined.

(** X17.  When the sample is empty the statistics hold the total alone,
    without sample size or histograms, and nothing is logged; on an empty
    collection the text of [get_jira_statistics] is the heading and the line
    "Total Tickets: 0". *)
Theorem stats_of_empty_sample
  {RT : Runtime} {S : Type} {CR : CollectionReader S}
  (w : World S) (count : Z) :
  vs_count (w_store w) = inr count ->
  vs_get (w_store w) (Z.min 50 count) = inr [] ->
  get_stats w = (inr (Counted count None), w)
  /\ get_jira_statistics w
     = (inr (StatsSuccess (statistics_text count None)
               (Counted count None)), w)
  /\ statistics_text 0 None
     = stats_icon ++ lit " **JIRA Knowledge Base Statistics**"
       ++ [newline; newline] ++ lit "Total Tickets: 0" ++ [newline].
Proof.
  intros Hc Hg.
  assert (E : get_stats w = (inr (Counted count None), w)).
  { apply get_stats_counted. unfold stats_of_collection.
    now rewrite Hc, Hg. }
  split; [exact E|]. split; [|reflexivity].
  unfold get_jira_statistics, try_except, bind. now rewrite E.
Qed.

Lemma stats_of_empty_sample_witness :
  get_stats (CR := list_reader) (initial_world [])
  = (inr (Counted 0 None), initial_world []).
Proof.
  exact (proj1 (stats_of_empty_sample (RT := table_runtime)
                  (CR := list_reader) (initial_world []) 0
                  eq_refl eq_refl)).
Defined.

(** X18.  When every category value of the sampled records can be a
    dictionary key, the statistics carry the size of the sample and three
    histograms in which the count of a value is the number of sampled
    records with that issue type (priority, status), a record without the
    field counting under "Unknown". *)
Theorem histograms_count_occurrences
  {RT : Runtime} {S : Type} {CR : CollectionReader S}
  (w : World S) (count : Z) (metadatas : list dict) :
  vs_count (w_store w) = inr count ->
  vs_get (w_store w) (Z.min 50 count) = inr metadatas ->
  metadatas <> [] ->
  Forall (fun m => categories_hashable m = true) metadatas ->
  exists h,
    get_stats w = (inr (Counted count (Some (len metadatas, h))), w)
    /\ (forall k, hist_get (issue_types h) k
                  = occurrences issue_type_of k metadatas)
    /\ (forall k, hist_get (priorities h) k
                  = occurrences priority_of k metadatas)
    /\ (forall k, hist_get (statuses h) k
                  = occurrences status_of k metadatas).
Proof.
  intros Hc Hg Hne Hh.
  destruct (count_records_hashable metadatas
              {| issue_types := []; priorities := []; statuses := [] |} Hh)
    as (h & Eh).
  exists h. split.
  - apply get_stats_counted. unfold stats_of_collection.
    rewrite Hc, Hg. destruct metadatas as [|m rest]; [contradiction|].
    now rewrite Eh.
  - destruct (count_records_spec _ _ _ Eh) as (Hi & Hp & Hs & _).
    cbn [issue_types priorities statuses hist_get] in Hi, Hp, Hs.
    repeat split; intros k; rewrite ?Hi, ?Hp, ?Hs; lia.
Qed.

Lemma sample_rows_hashable :
  Forall (fun m => categories_hashable m = true)
    (List.map row_metadata sample_rows).
Proof. repeat constructor. Qed.

Lemma histograms_count_occurrences_witness :
  exists h,
    fst (get_stats (CR := list_reader) (initial_world sample_rows))
    = inr (Counted 3 (Some (3, h)))
    /\ hist_get (issue_types h) (PyStr (lit "Bug")) = 2
    /\ hist_get (issue_types h) unknown = 1.
Proof.
  destruct (histograms_count_occurrences (RT := table_runtime)
              (CR := list_reader) (initial_world sample_rows) 3
              (List.map row_metadata sample_rows) eq_refl eq_refl
              ltac:(discriminate) sample_rows_hashable)
    as (h & E & Hi & _).
  exists h. split; [now rewrite E|].
  split; rewrite Hi; reflexivity.
Defined.

(** X19.  In whatever statistics [get_stats] returns with histograms, the
    counts of each of the three histograms add up to the sample size, which
    is positive. *)
Theorem histogram_counts_add_up
  {RT : Runtime} {S : Type} {CR : CollectionReader S}
  (w : World S) (total n : Z) (h : Histograms) :
  fst (get_stats w) = inr (Counted total (Some (n, h))) ->
  hist_total (issue_types h) = n
  /\ hist_total (priorities h) = n
  /\ hist_total (statuses h) = n
  /\ 0 < n.
Proof.
  unfold get_stats, stats_of_collection.
  destruct (vs_count (w_store w)) as [e|c]; [discriminate|].
  destruct (vs_get (w_store w) (Z.min 50 c)) as [e|[|m rest]];
    try discriminate.
  destruct (count_records _ (m :: rest)) as [e|h0] eqn:Eh; [discriminate|].
  cbn [fst]. intros [= <- <- <-].
  destruct (count_records_spec _ _ _ Eh) as (_ & _ & _ & Ti & Tp & Ts).
  cbn [issue_types priorities statuses] in Ti, Tp, Ts.
  unfold hist_total at 2 in Ti. unfold hist_total at 2 in Tp.
  unfold hist_total at 2 in Ts. cbn [fold_right] in Ti, Tp, Ts.
  assert (0 < len (m :: rest)) by (unfold len; cbn [List.length]; lia).
  repeat split; lia.
Qed.

Lemma histogram_counts_add_up_witness :
  exists h,
    fst (get_stats (CR := list_reader) (initial_world sample_rows))
    = inr (Counted 3 (Some (3, h)))
    /\ hist_total (issue_types h) = 3.
Proof.
  destruct (fst (get_stats (CR := list_reader) (initial_world sample_rows)))
    as [e|[total [[n h]|]|msg]] eqn:E;
    pose proof E as E0; vm_compute in E0; try discriminate E0.
  assert (total = 3) by congruence. assert (n = 3) by congruence. subst.
  exists h. split; [reflexivity|].
  exact (proj1 (histogram_counts_add_up (RT := table_runtime)
                  (CR := list_reader) (initial_world sample_rows) 3 3 h E)).
Defined.

(** X20.  A sampled record whose issue type, priority or status is a
    list or a dictionary makes the whole statistics fail: [get_stats] logs
    the type error and returns the total 0 with its message, and
    [get_jira_statistics] answers with that message as an error. *)
Theorem stats_fail_on_unhashable_category
  {RT : Runtime} {S : Type} {CR : CollectionReader S}
  (w : World S) (count : Z) (metadatas : list dict) :
  vs_count (w_store w) = inr count ->
  vs_get (w_store w) (Z.min 50 count) = inr metadatas ->
  Exists (fun m => categories_hashable m = false) metadatas ->
  exists msg,
    (msg = lit "unhashable type: 'list'"
     \/ msg = lit "unhashable type: 'dict'")
    /\ get_stats w
       = (inr (Failed msg), logged ERROR (lit "Failed to get stats: " ++ msg) w)
    /\ fst (get_jira_statistics w) = inr (StatsError msg).
Proof.
  intros Hc Hg Hex.
  destruct (count_records_unhashable metadatas
              {| issue_types := []; priorities := []; statuses := [] |} Hex)
    as (msg & Em & Hmsg).
  exists msg. split; [exact Hmsg|].
  apply (get_stats_raised w (TypeError msg)).
  unfold stats_of_collection. rewrite Hc, Hg.
  destruct metadatas as [|m rest]; [inversion Hex|]. now rewrite Em.
Qed.

Lemma object_rows_unhashable :
  Exists (fun m => categories_hashable m = false)
    (List.map row_metadata object_rows).
Proof. apply Exists_cons_hd. reflexivity. Qed.

Lemma stats_fail_on_unhashable_category_witness :
  fst (get_jira_statistics (RT := table_runtime) (CR := list_reader)
         (initial_world object_rows))
  = inr (StatsError (lit "unhashable type: 'dict'")).
Proof.
  destruct (stats_fail_on_unhashable_category (RT := table_runtime)
              (CR := list_reader) (initial_world object_rows) 1
              (List.map row_metadata object_rows) eq_refl eq_refl
              object_rows_unhashable)
    as (msg & _ & E & H).
  rewrite H. vm_compute in E. injection E as <-. reflexivity.
Defined.

(** ** The search tool on a well-formed answer *)

Lemma listed_id_of_info (res : SearchResult) :
  listed_id (ticket_info_dict (ticket_info res))
  = Some (PyStr (ticket_id res)).
Proof. reflexivity. Qed.

(** X21.  When the store answers with at least one row, in arrays that
    line up, the search tool reports success, a [total_found] equal to the
    number of rows, and one ticket per row, listed in the store's order under
    the row's identifier. *)
Theorem search_tool_reports_every_row
  {RT : Runtime} {S : Type} {VS : VectorStore S}
  (query : str) (limit : Z) (w : World S) (r : QueryResult) :
  vs_query (w_store w) query (Z.min (Z.max 1 limit) 20) [] = inr r ->
  parallel r ->
  Forall is_binary64 (distances r) ->
  ids r <> [] ->
  exists tickets,
    field (fst (search_jira_tickets query limit w)) (lit "status")
    = Some (PyStr (lit "success"))
    /\ field (fst (search_jira_tickets query limit w)) (lit "total_found")
       = Some (PyInt (len (ids r)))
    /\ field (fst (search_jira_tickets query limit w)) (lit "tickets")
       = Some (PyList tickets)
    /\ List.map listed_id tickets
       = List.map (fun i => Some (PyStr i)) (ids r).
Proof.
  intros Hq (Hd & Hm & Hs) Hb Hne.
  assert (Hr : Forall in_range (distances r)).
  { eapply Forall_impl; [|exact Hb]. apply binary64_in_range. }
  destruct (format_from_rows r (ids r) 0) as (l & El & Eid & _);
    try assumption.
  exists (List.map ticket_info_dict (List.map ticket_info l)).
  unfold search_jira_tickets, try_except, bind.
  rewrite search_tickets_unfold. cbv zeta. cbn [or_empty].
  replace (Z.min (Z.min (Z.max 1 limit) 20) 20)
    with (Z.min (Z.max 1 limit) 20) by lia.
  rewrite Hq. unfold formatted_results. rewrite El.
  destruct l as [|res l]; [cbn in Eid; congruence|].
  assert (Hlen : len (res :: l) = len (ids r))
    by (unfold len; now rewrite <- Eid, length_map).
  cbn [fst]. rewrite <- Hlen. repeat split.
  rewrite <- Eid, !map_map. apply map_ext. intros a.
  apply listed_id_of_info.
Qed.

Lemma search_tool_reports_every_row_witness :
  field (fst (search_jira_tickets (RT := table_runtime) (VS := canned_store)
                (lit "X") 5 (initial_world tt))) (lit "total_found")
  = Some (PyInt 3).
Proof.
  destruct (search_tool_reports_every_row (RT := table_runtime)
              (VS := canned_store) (lit "X") 5 (initial_world tt)
              canned_result eq_refl (conj eq_refl (conj eq_refl eq_refl))
              canned_distances_are_floats ltac:(discriminate))
    as (tickets & _ & H & _).
  exact H.
Defined.

(** ** Defaults shown for a stored ticket *)

Lemma absent_or_empty_dropped {RT : Runtime} (t : dict) (f sub : str) :
  sub <> [] -> absent_or_empty (dict_get t f) ->
  keep_truthy (Some (resolved t f sub f)) = None.
Proof.
  intros Hsub [H|H]; [now apply resolved_absent|].
  unfold resolved, safe_extract, py_or, get_or. now rewrite H.
Qed.

(** X22.  A ticket stored without assignee (absent or empty) is shown by
    the search tool as "Unassigned", and one without priority or status as
    "Unknown": the empty value is dropped from the metadata and the tool's
    default takes its place. *)
Theorem stored_ticket_defaults {RT : Runtime} (now : str) (t : dict)
  (res : SearchResult) :
  metadata res = _extract_metadata now t ->
  (absent_or_empty (dict_get t (lit "assignee")) ->
   info_assignee (ticket_info res) = PyStr (lit "Unassigned"))
  /\ (absent_or_empty (dict_get t (lit "priority")) ->
      info_priority (ticket_info res) = PyStr (lit "Unknown"))
  /\ (absent_or_empty (dict_get t (lit "status")) ->
      info_status (ticket_info res) = PyStr (lit "Unknown")).
Proof.
  intros Hm. unfold ticket_info.
  cbn [info_assignee info_priority info_status]. rewrite Hm.
  split; [|split]; intros H; unfold get_or; rewrite metadata_lookup.
  - change (dict_get (raw_metadata now t) (lit "assignee"))
      with (Some (resolved t (lit "assignee") (lit "displayName")
                    (lit "assignee"))).
    now rewrite absent_or_empty_dropped by (assumption || discriminate).
  - change (dict_get (raw_metadata now t) (lit "priority"))
      with (Some (resolved t (lit "priority") (lit "name")
                    (lit "priority"))).
    now rewrite absent_or_empty_dropped by (assumption || discriminate).
  - change (dict_get (raw_metadata now t) (lit "status"))
      with (Some (resolved t (lit "status") (lit "name") (lit "status"))).
    now rewrite absent_or_empty_dropped by (assumption || discriminate).
Qed.

Lemma stored_ticket_defaults_witness :
  info_assignee
    (ticket_info {| ticket_id := lit "T-9"; content := [];
                    metadata := _extract_metadata (RT := table_runtime)
                                  (lit "2024-01-15") ticket_bare;
                    relevance_score := f_one |})
  = PyStr (lit "Unassigned").
Proof.
  refine (proj1 (stored_ticket_defaults (RT := table_runtime)
                   (lit "2024-01-15") ticket_bare
                   {| ticket_id := lit "T-9"; content := [];
                      metadata := _extract_metadata (RT := table_runtime)
                                    (lit "2024-01-15") ticket_bare;
                      relevance_score := f_one |} eq_refl) _).
  left. reflexivity.
Defined.

(** ** What one call of [add_ticket] consumes *)

(** X23.  Every call of [add_ticket] draws exactly one uuid, also when the
    ticket has a key and the uuid goes unused, and reads the clock exactly
    once, whether the store accepts the record or not; the [indexed_at] of
    the record it hands to the store is that reading of the clock. *)
Theorem add_ticket_draws_once
  {RT : Runtime} {S : Type} {VS : VectorStore S} (t : dict) (w : World S) :
  w_uuid_n (snd (add_ticket t w)) = Datatypes.S (w_uuid_n w)
  /\ w_now_n (snd (add_ticket t w)) = Datatypes.S (w_now_n w)
  /\ exists id document metadata,
       w_calls (snd (add_ticket t w))
       = w_calls w ++ [CallAdd id document metadata]
       /\ dict_get metadata (lit "indexed_at")
          = nonempty_str (w_now w (w_now_n w)).
Proof.
  split; [|split].
  - unfold add_ticket, bind, try_except, collection_add, uuid4_str,
      now_isoformat.
    cbn [w_store w_uuid4 w_uuid_n w_now w_now_n fst snd].
    destruct (vs_add _ _ _ _); reflexivity.
  - unfold add_ticket, bind, try_except, collection_add, uuid4_str,
      now_isoformat.
    cbn [w_store w_uuid4 w_uuid_n w_now w_now_n fst snd].
    destruct (vs_add _ _ _ _); reflexivity.
  - exists (identifier_in w t), (_create_searchable_document t),
      (metadata_in w t).
    split; [apply add_ticket_calls|].
    unfold metadata_in. rewrite metadata_lookup.
    change (dict_get (raw_metadata (w_now w (w_now_n w)) t)
              (lit "indexed_at"))
      with (Some (PyStr (w_now w (w_now_n w)))).
    cbn. now destruct (w_now w (w_now_n w)).
Qed.

(** ** Scores outside the unit interval *)

Lemma score_at_one : score_of_distance f_one = inr f_zero.
Proof. vm_compute. reflexivity. Qed.

Lemma score_at_zero : score_of_distance f_zero = inr f_one.
Proof. vm_compute. reflexivity. Qed.

Lemma f_zero_in_range : in_range f_zero.
Proof. vm_compute. split; discriminate. Qed.

Lemma f_one_in_range : in_range f_one.
Proof. vm_compute. split; discriminate. Qed.

(** X24.  The score is 1 at distance 0 and 0 at distance 1, never above 1
    for a distance that is not negative, and never above 0 for a distance of
    1 or more: a store whose distances exceed 1 yields negative relevance
    scores. *)
Theorem score_beyond_unit_distance (d : float64) :
  is_binary64 d ->
  score_of_distance f_zero = inr f_one
  /\ score_of_distance f_one = inr f_zero
  /\ exists s,
       score_of_distance d = inr s
       /\ (fle f_zero d = true -> fle s f_one = true)
       /\ (fle f_one d = true -> fle s f_zero = true).
Proof.
  intros Hb. split; [exact score_at_zero|]. split; [exact score_at_one|].
  destruct (score_defined d (binary64_in_range d Hb)) as (s & Es & _).
  exists s. split; [exact Es|]. split; intros Hle.
  - exact (score_antitone f_zero d f_one s Hle score_at_zero Es).
  - exact (score_antitone f_one d f_zero s Hle score_at_one Es).
Qed.

Lemma f_two_is_float : is_binary64 f_two.
Proof.
  cbv [is_binary64 f_two is_binary64_units]. exists 1, 1075.
  split; [vm_compute; reflexivity|]. split; [reflexivity|].
  split; discriminate.
Qed.

Lemma score_beyond_unit_distance_witness :
  exists s, score_of_distance f_two = inr s /\ fle s f_zero = true.
Proof.
  destruct (score_beyond_unit_distance f_two f_two_is_float)
    as (_ & _ & s & Es & _ & Hneg).
  exists s. split; [exact Es|]. apply Hneg. vm_compute. reflexivity.
Defined.

(** ** The filter tool on a well-formed answer *)

(** X25.  When at least one criterion is given and the store answers with
    at least one row, in arrays that line up, the filter tool reports
    success and a [total_found] equal to the number of rows; unlike the
    search tool it returns no [tickets] list, the rows being described in
    the text only. *)
Theorem filter_tool_reports_row_count
  {RT : Runtime} {S : Type} {VS : VectorStore S}
  (issue_type priority status assignee : str) (w : World S)
  (r : QueryResult) :
  let filters := build_filters issue_type priority status assignee in
  filters <> [] ->
  vs_query (w_store w) [] 20 filters = inr r ->
  parallel r ->
  Forall is_binary64 (distances r) ->
  ids r <> [] ->
  let answer :=
    fst (filter_jira_tickets issue_type priority status assignee w) in
  field answer (lit "status") = Some (PyStr (lit "success"))
  /\ field answer (lit "total_found") = Some (PyInt (len (ids r)))
  /\ field answer (lit "tickets") = None.
Proof.
  intros filters Hf Hq (Hd & Hm & Hs) Hb Hne answer.
  subst filters answer.
  assert (Hr : Forall in_range (distances r)).
  { eapply Forall_impl; [|exact Hb]. apply binary64_in_range. }
  destruct (format_from_rows r (ids r) 0) as (l & El & Eid & _);
    try assumption.
  unfold filter_jira_tickets, try_except, bind.
  destruct (build_filters issue_type priority status assignee)
    as [|kv f] eqn:Ef; [congruence|].
  rewrite search_tickets_unfold. cbv zeta. cbn [or_empty].
  change (Z.min 20 20) with 20. rewrite Hq.
  unfold formatted_results. rewrite El.
  destruct l as [|res l]; [cbn in Eid; congruence|].
  assert (Hlen : len (res :: l) = len (ids r))
    by (unfold len; now rewrite <- Eid, length_map).
  cbn [fst]. rewrite <- Hlen. repeat split.
Qed.

Lemma filter_tool_reports_row_count_witness :
  field (fst (filter_jira_tickets (RT := table_runtime)
                (VS := canned_store) (lit "Bug") [] [] []
                (initial_world tt))) (lit "total_found")
  = Some (PyInt 3).
Proof.
  exact (proj1 (proj2
    (filter_tool_reports_row_count (RT := table_runtime)
       (VS := canned_store) (lit "Bug") [] [] [] (initial_world tt)
       canned_result ltac:(discriminate) eq_refl
       (conj eq_refl (conj eq_refl eq_refl))
       canned_distances_are_floats ltac:(discriminate)))).
Defined.

(** ** The add tool when the store accepts *)

(** X26.  For a ticket that passes validation and that the store accepts,
    the add tool hands the store exactly one record (the identifier, the
    document of the Document Builder, the metadata of the Metadata
    Extractor), logs "Added ticket ... to knowledge base" at info level,
    leaves the collection as the store returned it, and reports success with
    the identifier both in the text and as [ticket_id]. *)
Theorem add_accepted_ticket
  {RT : Runtime} {S : Type} {VS : VectorStore S}
  (ticket_json : str) (t : dict) (w : World S) (s' : S) :
  json_loads ticket_json = inr (PyDict t) ->
  truthy (get_or t (lit "key") PyNone)
  || truthy (get_or t (lit "summary") PyNone) = true ->
  vs_add (w_store w) (identifier_in w t) (_create_searchable_document t)
    (metadata_in w t) = inr s' ->
  let id := identifier_in w t in
  fst (add_jira_ticket ticket_json w)
  = inr (PyDict
           [ (lit "status", PyStr (lit "success"));
             (lit "result",
               PyStr (lit "Successfully added ticket " ++ py_str id
                      ++ lit " to knowledge base"));
             (lit "ticket_id", id) ])
  /\ w_store (snd (add_jira_ticket ticket_json w)) = s'
  /\ w_calls (snd (add_jira_ticket ticket_json w))
     = w_calls w
       ++ [CallAdd id (_create_searchable_document t) (metadata_in w t)]
  /\ w_log (snd (add_jira_ticket ticket_json w))
     = w_log w
       ++ [(INFO, lit "Added ticket " ++ py_str id
                  ++ lit " to knowledge base")].
Proof.
  intros Hj Hv Hadd id. subst id.
  destruct (add_jira_ticket_valid ticket_json t w Hj Hv) as [Hw Hr].
  destruct (add_ticket_accepted t w s' Hadd) as [Hfst Hst].
  rewrite (Hr _ Hfst), Hw. split; [reflexivity|]. split; [exact Hst|].
  split; [apply add_ticket_calls|].
  unfold add_ticket, bind, try_except, collection_add, uuid4_str,
    now_isoformat, identifier_in, metadata_in in *.
  cbn [w_store w_uuid4 w_uuid_n w_now w_now_n fst snd] in *.
  now rewrite Hadd.
Qed.

Lemma add_accepted_ticket_witness :
  w_log (snd (add_jira_ticket (RT := table_runtime) (VS := list_store)
                ticket_T1_json (initial_world [])))
  = [(INFO, lit "Added ticket T-1 to knowledge base")].
Proof.
  exact (proj2 (proj2 (proj2
    (add_accepted_ticket (RT := table_runtime) (VS := list_store)
       ticket_T1_json ticket_T1 (initial_world []) _ eq_refl eq_refl
       eq_refl)))).
Defined.

(** ** The document is already trimmed *)

Lemma lstrip_idempotent (s : str) : lstrip (lstrip s) = lstrip s.
Proof.
  induction s as [|c s IH]; [reflexivity|]. cbn [lstrip].
  destruct (is_space c) eqn:E; [exact IH|]. cbn [lstrip]. now rewrite E.
Qed.

Lemma rstrip_idempotent (s : str) : rstrip (rstrip s) = rstrip s.
Proof.
  unfold rstrip. now rewrite rev_involutive, lstrip_idempotent.
Qed.

(** X27.  For every ticket the document is never empty, begins with
    "Ticket: ", and carries no whitespace at either end: trimming it again
    changes nothing. *)
Theorem document_is_trimmed {RT : Runtime} (t : dict) :
  starts (lit "Ticket: ") (_create_searchable_document t) = true
  /\ _create_searchable_document t <> []
  /\ strip (_create_searchable_document t) = _create_searchable_document t.
Proof.
  assert (Hs : starts (lit "Ticket: ") (_create_searchable_document t)
               = true) by (rewrite document_trimmed; reflexivity).
  split; [exact Hs|]. split.
  - intros E. rewrite E in Hs. discriminate.
  - assert (Hl : lstrip (_create_searchable_document t)
                 = _create_searchable_document t)
      by (rewrite document_trimmed; reflexivity).
    unfold strip at 1. rewrite Hl.
    unfold _create_searchable_document, strip.
    apply rstrip_idempotent.
Qed.
